(** * goveelife: the climate platform (custom_components/goveelife/climate.py)

    A shallow embedding of the capability parser
    ([GoveeLifeClimate._init_platform_specific]) and of the state projector
    (the read properties and the command builders of [GoveeLifeClimate]),
    followed by the properties proved about them.

    Python values are the JSON values the cloud API delivers.  Exceptions are
    explicit results, attribute mutation is explicit state passing, and the
    class-level containers of [GoveeLifeClimate] live in a store shared by
    every entity. *)

From Stdlib Require Import ZArith List String Ascii Bool Lia Floats DecimalString.
Import ListNotations.
Open Scope string_scope.
Open Scope list_scope.
Open Scope Z_scope.
Set Warnings "-register-all,-inexact-float".

(** ** Python values *)

(** JSON has no NaN (RFC 8259), so a float of the value universe is a
    binary64 that is not NaN; arithmetic results are plain [float]s. *)
Definition not_nan (f : float) : bool :=
  match Prim2SF f with S754_nan => false | _ => true end.

Record pyfloat := mk_pyfloat { fval : float; fval_ok : not_nan fval = true }.

Inductive pyval :=
| VNone
| VBool (b : bool)
| VInt (z : Z)
| VFloat (f : pyfloat)
| VStr (s : string)
| VList (l : list pyval)
| VDict (d : list (string * pyval)).

Inductive exn := KeyError | TypeError | AttributeError | ValueError | OverflowError.

Inductive result (A : Type) :=
| Ok (a : A)
| Raise (e : exn).
Arguments Ok {A} a.
Arguments Raise {A} e.

Definition rbind {A B} (r : result A) (k : A -> result B) : result B :=
  match r with Ok a => k a | Raise e => Raise e end.

Notation "'let*' x ':=' r 'in' k" := (rbind r (fun x => k))
  (at level 10, x pattern, r at level 100, k at level 200).

Definition is_ok {A} (r : result A) : bool :=
  match r with Ok _ => true | Raise _ => false end.

(** *** Numbers compare by value: [True == 1 == 1.0] *)

(** The exact value of a finite number is [n * 2^e] with [n] odd, or [0]. *)
Inductive numkey :=
| KFin (n e : Z)
| KInf (neg : bool)
| KNaN.

Fixpoint strip2 (p : positive) : positive * Z :=
  match p with
  | xO q => let (m, k) := strip2 q in (m, k + 1)
  | _ => (p, 0)
  end.

Definition key_of_Z (z e : Z) : numkey :=
  match z with
  | Z0 => KFin 0 0
  | Zpos p => let (m, k) := strip2 p in KFin (Zpos m) (e + k)
  | Zneg p => let (m, k) := strip2 p in KFin (Zneg m) (e + k)
  end.

Definition key_of_float (f : float) : numkey :=
  match Prim2SF f with
  | S754_zero _ => KFin 0 0
  | S754_infinity s => KInf s
  | S754_nan => KNaN
  | S754_finite s m e => key_of_Z (if s then Zneg m else Zpos m) e
  end.

Definition numkey_eqb (x y : numkey) : bool :=
  match x, y with
  | KFin n e, KFin n' e' => (n =? n') && (e =? e')
  | KInf s, KInf s' => Bool.eqb s s'
  | _, _ => false
  end.

Definition py_num (v : pyval) : option numkey :=
  match v with
  | VBool b => Some (key_of_Z (if b then 1 else 0) 0)
  | VInt z => Some (key_of_Z z 0)
  | VFloat f => Some (key_of_float (fval f))
  | _ => None
  end.

Fixpoint dict_find {V} (k : string) (d : list (string * V)) : option V :=
  match d with
  | [] => None
  | (k', v) :: r => if String.eqb k k' then Some v else dict_find k r
  end.

Definition str_mem (k : string) (l : list string) : bool :=
  existsb (String.eqb k) l.

(** Lists are equal when they are equal element by element. *)
Definition list_eq_by (eq : pyval -> pyval -> bool) : list pyval -> list pyval -> bool :=
  fix go (l m : list pyval) : bool :=
    match l, m with
    | [] , [] => true
    | x :: l', y :: m' => eq x y && go l' m'
    | _, _ => false
    end.

(** Every key of [d] (first binding of each) is bound in [d'] to an equal value. *)
Definition dict_le_by (eq : pyval -> pyval -> bool) (d' : list (string * pyval)) :
  list string -> list (string * pyval) -> bool :=
  fix go (seen : list string) (d : list (string * pyval)) : bool :=
    match d with
    | [] => true
    | (k, v) :: r =>
        (str_mem k seen ||
         match dict_find k d' with Some v' => eq v v' | None => false end)
        && go (k :: seen) r
    end.

(** [a == b].  Dicts compare as mappings, whatever the order of their items. *)
Fixpoint py_eq (a b : pyval) {struct a} : bool :=
  match a, b with
  | VNone, VNone => true
  | VStr s, VStr t => String.eqb s t
  | VList l, VList m => list_eq_by py_eq l m
  | VDict d, VDict d' =>
      forallb (fun kv => str_mem (fst kv) (map fst d)) d' && dict_le_by py_eq d' [] d
  | _, _ =>
      match py_num a, py_num b with
      | Some x, Some y => numkey_eqb x y
      | _, _ => false
      end
  end.

(** [bool(v)] *)
Definition py_truthy (v : pyval) : bool :=
  match v with
  | VNone => false
  | VBool b => b
  | VInt z => negb (z =? 0)
  | VFloat f => negb (numkey_eqb (key_of_float (fval f)) (KFin 0 0))
  | VStr s => negb (String.eqb s EmptyString)
  | VList l => match l with [] => false | _ => true end
  | VDict d => match d with [] => false | _ => true end
  end.

(** [hash(v)] raises [TypeError] on lists and dicts. *)
Definition hashable (v : pyval) : bool :=
  match v with
  | VList _ | VDict _ => false
  | _ => true
  end.

(** [v[k]] with a string key *)
Definition py_getitem (v : pyval) (k : string) : result pyval :=
  match v with
  | VDict d => match dict_find k d with Some x => Ok x | None => Raise KeyError end
  | _ => Raise TypeError
  end.

(** [v.get(k, default)] *)
Definition py_get (v : pyval) (k : string) (default : pyval) : result pyval :=
  match v with
  | VDict d => Ok (match dict_find k d with Some x => x | None => default end)
  | _ => Raise AttributeError
  end.

Fixpoint chars (s : string) : list pyval :=
  match s with
  | EmptyString => []
  | String c r => VStr (String c EmptyString) :: chars r
  end.

(** [iter(v)]: the elements a [for] loop visits. *)
Definition py_iter (v : pyval) : result (list pyval) :=
  match v with
  | VList l => Ok l
  | VDict d => Ok (map (fun kv => VStr (fst kv)) d)
  | VStr s => Ok (chars s)
  | _ => Raise TypeError
  end.

Definition upper_ascii (c : ascii) : ascii :=
  let n := nat_of_ascii c in
  if ((97 <=? n) && (n <=? 122))%nat then ascii_of_nat (n - 32) else c.

(** A string is its UTF-8 bytes; it is ASCII when every byte is below 128. *)
Fixpoint all_ascii (s : string) : bool :=
  match s with
  | EmptyString => true
  | String c r => (nat_of_ascii c <? 128)%nat && all_ascii r
  end.

(** [s.upper()] on an ASCII string: the letters a-z go to A-Z. *)
Fixpoint ascii_upper (s : string) : string :=
  match s with
  | EmptyString => EmptyString
  | String c r => String (upper_ascii c) (ascii_upper r)
  end.

(** [float(z)] for an [int]: the nearest binary64, [OverflowError] beyond. *)
Definition float_of_Z (z : Z) : result float :=
  let f := SF2Prim (binary_normalize prec emax z 0 false) in
  match Prim2SF f with
  | S754_infinity _ => Raise OverflowError
  | _ => Ok f
  end.

(** What the embedding takes from the interpreter: the text of a float, list
    or dict ([repr]), the parse of a string by [float()] ([None] is
    [ValueError]) and the upper-casing of a string that is not ASCII, which
    follows the Unicode tables ([unicode_upper]). *)
Class PyRuntime := {
  py_repr : pyval -> string;
  float_of_str : string -> option float;
  unicode_upper : string -> string
}.

Definition Z_to_string (z : Z) : string :=
  NilZero.string_of_int (Z.to_int z).

Section Builtins.
Context {R : PyRuntime}.

(** [s.upper()] *)
Definition str_upper (s : string) : string :=
  if all_ascii s then ascii_upper s else unicode_upper s.

(** [v.upper()]: only [str] has the method. *)
Definition py_upper (v : pyval) : result string :=
  match v with
  | VStr s => Ok (str_upper s)
  | _ => Raise AttributeError
  end.

(** [str(v)], as an f-string field formats it. *)
Definition py_str (v : pyval) : string :=
  match v with
  | VNone => "None"
  | VBool true => "True"
  | VBool false => "False"
  | VInt z => Z_to_string z
  | VStr s => s
  | _ => py_repr v
  end.

(** [float(v)] *)
Definition py_float (v : pyval) : result float :=
  match v with
  | VBool b => Ok (if b then 1%float else 0%float)
  | VInt z => float_of_Z z
  | VFloat f => Ok (fval f)
  | VStr s => match float_of_str s with Some f => Ok f | None => Raise ValueError end
  | _ => Raise TypeError
  end.

End Builtins.

(** ** Python dicts

    A dict keeps its items in insertion order; assigning to a key that is
    already there keeps its place and its key object. *)
Definition pydict (V : Type) := list (pyval * V).

Fixpoint pd_find {V} (k : pyval) (d : pydict V) : option V :=
  match d with
  | [] => None
  | (k', v) :: r => if py_eq k' k then Some v else pd_find k r
  end.

Fixpoint pd_set {V} (k : pyval) (v : V) (d : pydict V) : pydict V :=
  match d with
  | [] => [(k, v)]
  | (k', v') :: r => if py_eq k' k then (k', v) :: r else (k', v') :: pd_set k v r
  end.

(** [d[k] = v] *)
Definition dict_setitem {V} (k : pyval) (v : V) (d : pydict V) : result (pydict V) :=
  if hashable k then Ok (pd_set k v d) else Raise TypeError.

(** [d.get(k)], as an option *)
Definition dict_get {V} (k : pyval) (d : pydict V) : result (option V) :=
  if hashable k then Ok (pd_find k d) else Raise TypeError.

Definition pd_keys {V} (d : pydict V) : list pyval := map fst d.

(** ** Home Assistant constants *)

Inductive HVACMode := OFF | HEAT | COOL | HEAT_COOL | AUTO | DRY | FAN_ONLY.

Definition HVACMode_eqb (a b : HVACMode) : bool :=
  match a, b with
  | OFF, OFF | HEAT, HEAT | COOL, COOL | HEAT_COOL, HEAT_COOL
  | AUTO, AUTO | DRY, DRY | FAN_ONLY, FAN_ONLY => true
  | _, _ => false
  end.

(** [HVACMode] members or [STATE_UNKNOWN], what [hvac_mode] returns. *)
Inductive hvac_state :=
| Mode (m : HVACMode)
| STATE_UNKNOWN.

Inductive UnitOfTemperature := CELSIUS | FAHRENHEIT | KELVIN.

(** [UnitOfTemperature[name]] *)
Definition UnitOfTemperature_getitem (name : string) : result UnitOfTemperature :=
  if String.eqb name "CELSIUS" then Ok CELSIUS
  else if String.eqb name "FAHRENHEIT" then Ok FAHRENHEIT
  else if String.eqb name "KELVIN" then Ok KELVIN
  else Raise KeyError.

Definition UnitOfTemperature_eqb (a b : UnitOfTemperature) : bool :=
  match a, b with
  | CELSIUS, CELSIUS | FAHRENHEIT, FAHRENHEIT | KELVIN, KELVIN => true
  | _, _ => false
  end.

(** [ClimateEntityFeature] flags *)
Definition TARGET_TEMPERATURE : Z := 1.
Definition PRESET_MODE : Z := 16.
Definition TURN_OFF : Z := 128.
Definition TURN_ON : Z := 256.

(** ** The entity's attributes *)

(** The [{"workMode": ..., "modeValue": ...}] dict stored per preset. *)
Record Payload := { workMode : pyval; modeValue : pyval }.

Definition payload_to_py (p : Payload) : pyval :=
  VDict [("workMode", workMode p); ("modeValue", modeValue p)].

(** Mode -> vendor value; [d[m] = v] keeps the place of a mode already there. *)
Fixpoint hm_set (m : HVACMode) (v : pyval) (d : list (HVACMode * pyval)) :
  list (HVACMode * pyval) :=
  match d with
  | [] => [(m, v)]
  | (m', v') :: r => if HVACMode_eqb m' m then (m', v) :: r else (m', v') :: hm_set m v r
  end.

Fixpoint hm_find (m : HVACMode) (d : list (HVACMode * pyval)) : option pyval :=
  match d with
  | [] => None
  | (m', v) :: r => if HVACMode_eqb m' m then Some v else hm_find m r
  end.

(** The containers declared in the body of [class GoveeLifeClimate]: one
    object each, shared by every entity that does not rebind the name. *)
Record ClassAttrs := {
  _attr_hvac_modes : list HVACMode;
  _attr_hvac_modes_mapping : pydict HVACMode;
  _attr_hvac_modes_mapping_set : list (HVACMode * pyval);
  _attr_preset_modes : list pyval;
  _attr_preset_modes_mapping : pydict pyval;
  _attr_preset_modes_mapping_set : pydict Payload
}.

(** The class as the module defines it: every container empty. *)
Definition GoveeLifeClimate : ClassAttrs :=
  {| _attr_hvac_modes := [];
     _attr_hvac_modes_mapping := [];
     _attr_hvac_modes_mapping_set := [];
     _attr_preset_modes := [];
     _attr_preset_modes_mapping := [];
     _attr_preset_modes_mapping_set := [] |}.

(** What one entity holds itself.  The three [own_] fields are the preset
    names once [self._attr_preset_... = ...] has bound them on the instance;
    [None] means the lookup falls through to the class. *)
Record Entity := {
  _device_cfg : pyval;
  _attr_supported_features : Z;
  _attr_max_temp : option pyval;
  _attr_min_temp : option pyval;
  _attr_target_temperature_step : option pyval;
  _attr_temperature_unit : option UnitOfTemperature;
  own_preset_modes : option (list pyval);
  own_preset_modes_mapping : option (pydict pyval);
  own_preset_modes_mapping_set : option (pydict Payload)
}.

(** An entity as the constructor hands it to [_init_platform_specific]. *)
Definition new_entity (device_cfg : pyval) (features : Z) : Entity :=
  {| _device_cfg := device_cfg;
     _attr_supported_features := features;
     _attr_max_temp := None;
     _attr_min_temp := None;
     _attr_target_temperature_step := None;
     _attr_temperature_unit := None;
     own_preset_modes := None;
     own_preset_modes_mapping := None;
     own_preset_modes_mapping_set := None |}.

Record Heap := { cls : ClassAttrs; self : Entity }.

(** [self._attr_preset_modes] and its two companions, as attribute lookup
    resolves them. *)
Definition preset_modes (h : Heap) : list pyval :=
  match own_preset_modes (self h) with
  | Some l => l
  | None => _attr_preset_modes (cls h)
  end.

Definition preset_modes_mapping (h : Heap) : pydict pyval :=
  match own_preset_modes_mapping (self h) with
  | Some d => d
  | None => _attr_preset_modes_mapping (cls h)
  end.

Definition preset_modes_mapping_set (h : Heap) : pydict Payload :=
  match own_preset_modes_mapping_set (self h) with
  | Some d => d
  | None => _attr_preset_modes_mapping_set (cls h)
  end.

Definition with_cls (h : Heap) (c : ClassAttrs) : Heap := {| cls := c; self := self h |}.
Definition with_self (h : Heap) (e : Entity) : Heap := {| cls := cls h; self := e |}.

Definition set_hvac_modes (c : ClassAttrs) (x : list HVACMode) : ClassAttrs :=
  {| _attr_hvac_modes := x;
     _attr_hvac_modes_mapping := _attr_hvac_modes_mapping c;
     _attr_hvac_modes_mapping_set := _attr_hvac_modes_mapping_set c;
     _attr_preset_modes := _attr_preset_modes c;
     _attr_preset_modes_mapping := _attr_preset_modes_mapping c;
     _attr_preset_modes_mapping_set := _attr_preset_modes_mapping_set c |}.

Definition set_hvac_modes_mapping (c : ClassAttrs) (x : pydict HVACMode) : ClassAttrs :=
  {| _attr_hvac_modes := _attr_hvac_modes c;
     _attr_hvac_modes_mapping := x;
     _attr_hvac_modes_mapping_set := _attr_hvac_modes_mapping_set c;
     _attr_preset_modes := _attr_preset_modes c;
     _attr_preset_modes_mapping := _attr_preset_modes_mapping c;
     _attr_preset_modes_mapping_set := _attr_preset_modes_mapping_set c |}.

Definition set_hvac_modes_mapping_set (c : ClassAttrs) (x : list (HVACMode * pyval)) :
  ClassAttrs :=
  {| _attr_hvac_modes := _attr_hvac_modes c;
     _attr_hvac_modes_mapping := _attr_hvac_modes_mapping c;
     _attr_hvac_modes_mapping_set := x;
     _attr_preset_modes := _attr_preset_modes c;
     _attr_preset_modes_mapping := _attr_preset_modes_mapping c;
     _attr_preset_modes_mapping_set := _attr_preset_modes_mapping_set c |}.

Definition set_cls_preset_modes (c : ClassAttrs) (x : list pyval) : ClassAttrs :=
  {| _attr_hvac_modes := _attr_hvac_modes c;
     _attr_hvac_modes_mapping := _attr_hvac_modes_mapping c;
     _attr_hvac_modes_mapping_set := _attr_hvac_modes_mapping_set c;
     _attr_preset_modes := x;
     _attr_preset_modes_mapping := _attr_preset_modes_mapping c;
     _attr_preset_modes_mapping_set := _attr_preset_modes_mapping_set c |}.

Definition set_cls_preset_modes_mapping (c : ClassAttrs) (x : pydict pyval) : ClassAttrs :=
  {| _attr_hvac_modes := _attr_hvac_modes c;
     _attr_hvac_modes_mapping := _attr_hvac_modes_mapping c;
     _attr_hvac_modes_mapping_set := _attr_hvac_modes_mapping_set c;
     _attr_preset_modes := _attr_preset_modes c;
     _attr_preset_modes_mapping := x;
     _attr_preset_modes_mapping_set := _attr_preset_modes_mapping_set c |}.

Definition set_cls_preset_modes_mapping_set (c : ClassAttrs) (x : pydict Payload) :
  ClassAttrs :=
  {| _attr_hvac_modes := _attr_hvac_modes c;
     _attr_hvac_modes_mapping := _attr_hvac_modes_mapping c;
     _attr_hvac_modes_mapping_set := _attr_hvac_modes_mapping_set c;
     _attr_preset_modes := _attr_preset_modes c;
     _attr_preset_modes_mapping := _attr_preset_modes_mapping c;
     _attr_preset_modes_mapping_set := x |}.

Definition set_supported_features (e : Entity) (x : Z) : Entity :=
  {| _device_cfg := _device_cfg e;
     _attr_supported_features := x;
     _attr_max_temp := _attr_max_temp e;
     _attr_min_temp := _attr_min_temp e;
     _attr_target_temperature_step := _attr_target_temperature_step e;
     _attr_temperature_unit := _attr_temperature_unit e;
     own_preset_modes := own_preset_modes e;
     own_preset_modes_mapping := own_preset_modes_mapping e;
     own_preset_modes_mapping_set := own_preset_modes_mapping_set e |}.

Definition set_max_temp (e : Entity) (x : pyval) : Entity :=
  {| _device_cfg := _device_cfg e;
     _attr_supported_features := _attr_supported_features e;
     _attr_max_temp := Some x;
     _attr_min_temp := _attr_min_temp e;
     _attr_target_temperature_step := _attr_target_temperature_step e;
     _attr_temperature_unit := _attr_temperature_unit e;
     own_preset_modes := own_preset_modes e;
     own_preset_modes_mapping := own_preset_modes_mapping e;
     own_preset_modes_mapping_set := own_preset_modes_mapping_set e |}.

Definition set_min_temp (e : Entity) (x : pyval) : Entity :=
  {| _device_cfg := _device_cfg e;
     _attr_supported_features := _attr_supported_features e;
     _attr_max_temp := _attr_max_temp e;
     _attr_min_temp := Some x;
     _attr_target_temperature_step := _attr_target_temperature_step e;
     _attr_temperature_unit := _attr_temperature_unit e;
     own_preset_modes := own_preset_modes e;
     own_preset_modes_mapping := own_preset_modes_mapping e;
     own_preset_modes_mapping_set := own_preset_modes_mapping_set e |}.

Definition set_target_temperature_step (e : Entity) (x : pyval) : Entity :=
  {| _device_cfg := _device_cfg e;
     _attr_supported_features := _attr_supported_features e;
     _attr_max_temp := _attr_max_temp e;
     _attr_min_temp := _attr_min_temp e;
     _attr_target_temperature_step := Some x;
     _attr_temperature_unit := _attr_temperature_unit e;
     own_preset_modes := own_preset_modes e;
     own_preset_modes_mapping := own_preset_modes_mapping e;
     own_preset_modes_mapping_set := own_preset_modes_mapping_set e |}.

Definition set_temperature_unit (e : Entity) (x : UnitOfTemperature) : Entity :=
  {| _device_cfg := _device_cfg e;
     _attr_supported_features := _attr_supported_features e;
     _attr_max_temp := _attr_max_temp e;
     _attr_min_temp := _attr_min_temp e;
     _attr_target_temperature_step := _attr_target_temperature_step e;
     _attr_temperature_unit := Some x;
     own_preset_modes := own_preset_modes e;
     own_preset_modes_mapping := own_preset_modes_mapping e;
     own_preset_modes_mapping_set := own_preset_modes_mapping_set e |}.

Definition set_own_presets (e : Entity) (l : option (list pyval))
  (m : option (pydict pyval)) (ms : option (pydict Payload)) : Entity :=
  {| _device_cfg := _device_cfg e;
     _attr_supported_features := _attr_supported_features e;
     _attr_max_temp := _attr_max_temp e;
     _attr_min_temp := _attr_min_temp e;
     _attr_target_temperature_step := _attr_target_temperature_step e;
     _attr_temperature_unit := _attr_temperature_unit e;
     own_preset_modes := l;
     own_preset_modes_mapping := m;
     own_preset_modes_mapping_set := ms |}.

(** [self._attr_x = v] for a cached property [x] of Home Assistant's
    [ClimateEntity] ([max_temp], [min_temp], [target_temperature_step],
    [preset_modes], ...): the metaclass turns [_attr_x] into a property whose
    setter returns without binding when the current value is [==] the new
    one.  The value the attribute holds afterwards: *)
Definition cached_assign (current : option pyval) (v : pyval) : pyval :=
  match current with
  | Some c => if py_eq c v then c else v
  | None => v
  end.

(** ** The parser's effects: mutation, exceptions, the log *)

Inductive level := DEBUG | WARNING | ERROR.

Definition LogRecord := (level * string)%type.

(** A run ends with a value or an exception, a heap (what was mutated before
    an exception stays mutated) and the records it logged. *)
Record Outcome (A : Type) := {
  res : result A;
  heap : Heap;
  logs : list LogRecord
}.
Arguments res {A} o.
Arguments heap {A} o.
Arguments logs {A} o.

Definition M (A : Type) := Heap -> Outcome A.

Definition ret {A} (a : A) : M A :=
  fun h => {| res := Ok a; heap := h; logs := [] |}.

Definition bind {A B} (m : M A) (k : A -> M B) : M B :=
  fun h =>
    let o := m h in
    match res o with
    | Ok a =>
        let o' := k a (heap o) in
        {| res := res o'; heap := heap o'; logs := logs o ++ logs o' |}
    | Raise e => {| res := Raise e; heap := heap o; logs := logs o |}
    end.

Notation "x <- m ;; k" := (bind m (fun x => k))
  (at level 61, m at next level, right associativity).
Notation "m ;; k" := (bind m (fun _ => k))
  (at level 61, right associativity).

(** A pure evaluation that may raise. *)
Definition lift {A} (r : result A) : M A :=
  fun h => {| res := r; heap := h; logs := [] |}.

Definition gets {A} (f : Heap -> A) : M A :=
  fun h => {| res := Ok (f h); heap := h; logs := [] |}.

Definition modify (f : Heap -> Heap) : M unit :=
  fun h => {| res := Ok tt; heap := f h; logs := [] |}.

Definition log (l : level) (msg : string) : M unit :=
  fun h => {| res := Ok tt; heap := h; logs := [(l, msg)] |}.

(** [for x in l: body(x)] *)
Fixpoint for_each {X} (l : list X) (body : X -> M unit) : M unit :=
  match l with
  | [] => ret tt
  | x :: r => body x ;; for_each r body
  end.

(** [self._attr_supported_features |= flag] *)
Definition add_feature (flag : Z) : M unit :=
  modify (fun h =>
    with_self h (set_supported_features (self h)
                   (Z.lor (_attr_supported_features (self h)) flag))).

(** [self._attr_hvac_modes.append(m)]: the class's list. *)
Definition hvac_modes_append (m : HVACMode) : M unit :=
  modify (fun h =>
    with_cls h (set_hvac_modes (cls h) (_attr_hvac_modes (cls h) ++ [m]))).

(** [self._attr_hvac_modes_mapping[value] = m]: the class's dict. *)
Definition hvac_modes_mapping_setitem (value : pyval) (m : HVACMode) : M unit :=
  d <- gets (fun h => _attr_hvac_modes_mapping (cls h)) ;;
  d' <- lift (dict_setitem value m d) ;;
  modify (fun h => with_cls h (set_hvac_modes_mapping (cls h) d')).

(** [self._attr_hvac_modes_mapping_set[m] = value]: the class's dict. *)
Definition hvac_modes_mapping_set_setitem (m : HVACMode) (value : pyval) : M unit :=
  modify (fun h =>
    with_cls h (set_hvac_modes_mapping_set (cls h)
                  (hm_set m value (_attr_hvac_modes_mapping_set (cls h))))).

(** [self._attr_preset_modes.append(name)]: the object the name resolves to. *)
Definition preset_modes_append (name : pyval) : M unit :=
  modify (fun h =>
    match own_preset_modes (self h) with
    | Some l =>
        with_self h (set_own_presets (self h) (Some (l ++ [name]))
                       (own_preset_modes_mapping (self h))
                       (own_preset_modes_mapping_set (self h)))
    | None =>
        with_cls h (set_cls_preset_modes (cls h) (_attr_preset_modes (cls h) ++ [name]))
    end).

(** [self._attr_preset_modes_mapping[name] = value] *)
Definition preset_modes_mapping_setitem (name value : pyval) : M unit :=
  d <- gets preset_modes_mapping ;;
  d' <- lift (dict_setitem name value d) ;;
  modify (fun h =>
    match own_preset_modes_mapping (self h) with
    | Some _ =>
        with_self h (set_own_presets (self h) (own_preset_modes (self h)) (Some d')
                       (own_preset_modes_mapping_set (self h)))
    | None => with_cls h (set_cls_preset_modes_mapping (cls h) d')
    end).

(** [self._attr_preset_modes_mapping_set[name] = payload] *)
Definition preset_modes_mapping_set_setitem (name : pyval) (p : Payload) : M unit :=
  d <- gets preset_modes_mapping_set ;;
  d' <- lift (dict_setitem name p d) ;;
  modify (fun h =>
    match own_preset_modes_mapping_set (self h) with
    | Some _ =>
        with_self h (set_own_presets (self h) (own_preset_modes (self h))
                       (own_preset_modes_mapping (self h)) (Some d'))
    | None => with_cls h (set_cls_preset_modes_mapping_set (cls h) d')
    end).

(** The three assignments [self._attr_preset_modes = []],
    [self._attr_preset_modes_mapping = {}] and
    [self._attr_preset_modes_mapping_set = {}].  [preset_modes] is one of the
    cached properties of Home Assistant's [ClimateEntity]: the metaclass turns
    [_attr_preset_modes] into a property whose setter returns without binding
    anything when the value the attribute resolves to is [==] the new one.
    So the first assignment binds a fresh list on the instance only when the
    current list is not empty; on an empty class-level list it binds nothing,
    and the appends that follow reach the list of the class.  The two
    mappings are plain attributes: their assignments bind fresh dicts on the
    instance. *)
Definition reset_presets : M unit :=
  modify (fun h =>
    let own_list := match preset_modes h with
                    | [] => own_preset_modes (self h)
                    | _ :: _ => Some []
                    end in
    with_self h (set_own_presets (self h) own_list (Some []) (Some []))).

(** ** [GoveeLifeClimate._init_platform_specific] *)

(** [next((f for f in fields if f['fieldName'] == fname), None)] *)
Fixpoint find_field (fields : list pyval) (fname : string) : result (option pyval) :=
  match fields with
  | [] => Ok None
  | f :: r =>
      let* n := py_getitem f "fieldName" in
      if py_eq n (VStr fname) then Ok (Some f) else find_field r fname
  end.

(** The loop over [mode_field.get('options', [])] that leaves in
    [default_val] the [defaultValue] of the last option named [name]. *)
Fixpoint default_level (opts : list pyval) (name default_val : pyval) : result pyval :=
  match opts with
  | [] => Ok default_val
  | f :: r =>
      let* n := py_get f "name" VNone in
      if py_eq n name then
        let* d := py_get f "defaultValue" (VInt 0) in
        default_level r name d
      else default_level r name default_val
  end.

(** [not v] for the result of [next(..., None)] *)
Definition opt_falsy (o : option pyval) : bool :=
  match o with
  | None => true
  | Some v => negb (py_truthy v)
  end.

Section Parser.
Context {R : PyRuntime}.

(** One turn of [for option in cap['parameters']['options']]. *)
Definition on_off_option (option : pyval) : M unit :=
  name <- lift (py_getitem option "name") ;;
  if py_eq name (VStr "on") then
    add_feature TURN_ON ;;
    hvac_modes_append HEAT_COOL ;;
    value <- lift (py_getitem option "value") ;;
    hvac_modes_mapping_setitem value HEAT_COOL ;;
    value <- lift (py_getitem option "value") ;;
    hvac_modes_mapping_set_setitem HEAT_COOL value
  else if py_eq name (VStr "off") then
    add_feature TURN_OFF ;;
    hvac_modes_append OFF ;;
    value <- lift (py_getitem option "value") ;;
    hvac_modes_mapping_setitem value OFF ;;
    value <- lift (py_getitem option "value") ;;
    hvac_modes_mapping_set_setitem OFF value
  else
    log WARNING "_init_platform_specific: unknown on_off option".

(** One turn of [for field in cap['parameters']['fields']]. *)
Definition temperature_field (field : pyval) : M unit :=
  fieldName <- lift (py_getitem field "fieldName") ;;
  if py_eq fieldName (VStr "temperature") then
    v <- lift (let* r := py_getitem field "range" in py_getitem r "max") ;;
    modify (fun h =>
      with_self h (set_max_temp (self h) (cached_assign (_attr_max_temp (self h)) v))) ;;
    v <- lift (let* r := py_getitem field "range" in py_getitem r "min") ;;
    modify (fun h =>
      with_self h (set_min_temp (self h) (cached_assign (_attr_min_temp (self h)) v))) ;;
    v <- lift (let* r := py_getitem field "range" in py_getitem r "precision") ;;
    modify (fun h =>
      with_self h (set_target_temperature_step (self h)
                     (cached_assign (_attr_target_temperature_step (self h)) v)))
  else if py_eq fieldName (VStr "unit") then
    u <- lift (let* d := py_getitem field "defaultValue" in
               let* s := py_upper d in
               UnitOfTemperature_getitem s) ;;
    modify (fun h => with_self h (set_temperature_unit (self h) u))
  else if py_eq fieldName (VStr "autoStop") then
    ret tt
  else
    ret tt.

(** One turn of [for level in sub.get('options', [])]. *)
Definition gear_level (name value level : pyval) : M unit :=
  level_name <- lift (py_getitem level "name") ;;
  level_value <- lift (py_getitem level "value") ;;
  let mode_name := VStr (String.append (py_str name) (String.append "-" (py_str level_name))) in
  preset_modes_append mode_name ;;
  preset_modes_mapping_setitem mode_name value ;;
  preset_modes_mapping_set_setitem mode_name
    {| workMode := value; modeValue := level_value |}.

(** One turn of [for sub in mode_field.get('options', [])]. *)
Definition gear_sub (name value sub : pyval) : M unit :=
  sub_name <- lift (py_get sub "name" VNone) ;;
  if negb (py_eq sub_name (VStr "gearMode")) then
    ret tt
  else
    levels <- lift (let* o := py_get sub "options" (VList []) in py_iter o) ;;
    for_each levels (gear_level name value).

(** One turn of [for work_option in work_field.get('options', [])]. *)
Definition work_option_step (mode_field work_option : pyval) : M unit :=
  name <- lift (py_getitem work_option "name") ;;
  value <- lift (py_getitem work_option "value") ;;
  if py_eq name (VStr "gearMode") then
    subs <- lift (let* o := py_get mode_field "options" (VList []) in py_iter o) ;;
    for_each subs (gear_sub name value)
  else
    default_val <- lift (let* o := py_get mode_field "options" (VList []) in
                         let* fs := py_iter o in
                         default_level fs name (VInt 0)) ;;
    preset_modes_append name ;;
    preset_modes_mapping_setitem name value ;;
    preset_modes_mapping_set_setitem name
      {| workMode := value; modeValue := default_val |}.

(** The [work_mode] branch. *)
Definition work_mode_cap (cap : pyval) : M unit :=
  add_feature PRESET_MODE ;;
  reset_presets ;;
  work_field <- lift (let* p := py_getitem cap "parameters" in
                      let* f := py_getitem p "fields" in
                      let* fs := py_iter f in
                      find_field fs "workMode") ;;
  mode_field <- lift (let* p := py_getitem cap "parameters" in
                      let* f := py_getitem p "fields" in
                      let* fs := py_iter f in
                      find_field fs "modeValue") ;;
  (if opt_falsy work_field || opt_falsy mode_field then
     log WARNING "missing workMode or modeValue fields"
   else
     match work_field, mode_field with
     | Some work_field, Some mode_field =>
         opts <- lift (let* o := py_get work_field "options" (VList []) in py_iter o) ;;
         for_each opts (work_option_step mode_field)
     | _, _ => ret tt
     end) ;;
  log DEBUG "Available preset modes".

(** The body of [for cap in capabilities].  [cap['type']] is read once here:
    the later arms of the [elif] chain read it again and get the same value. *)
Definition process_cap (cap : pyval) : M unit :=
  type <- lift (py_getitem cap "type") ;;
  if py_eq type (VStr "devices.capabilities.on_off") then
    options <- lift (let* p := py_getitem cap "parameters" in
                     let* o := py_getitem p "options" in
                     py_iter o) ;;
    for_each options on_off_option
  else
    is_temperature <-
      (if py_eq type (VStr "devices.capabilities.temperature_setting") then
         instance <- lift (py_getitem cap "instance") ;;
         ret (py_eq instance (VStr "targetTemperature")
              || py_eq instance (VStr "sliderTemperature"))
       else ret false) ;;
    if is_temperature then
      add_feature TARGET_TEMPERATURE ;;
      fields <- lift (let* p := py_getitem cap "parameters" in
                      let* f := py_getitem p "fields" in
                      py_iter f) ;;
      for_each fields temperature_field
    else if py_eq type (VStr "devices.capabilities.work_mode") then
      work_mode_cap cap
    else
      is_sensor <-
        (if py_eq type (VStr "devices.capabilities.property") then
           instance <- lift (py_getitem cap "instance") ;;
           ret (py_eq instance (VStr "sensorTemperature"))
         else ret false) ;;
      if is_sensor then ret tt
      else log DEBUG "_init_platform_specific: cap unhandled".

Definition _init_platform_specific : M unit :=
  log DEBUG "_init_platform_specific" ;;
  capabilities <- (cfg <- gets (fun h => _device_cfg (self h)) ;;
                   lift (py_get cfg "capabilities" (VList []))) ;;
  log DEBUG "_init_platform_specific: processing devices request capabilities" ;;
  caps <- lift (py_iter capabilities) ;;
  for_each caps process_cap.

End Parser.

(** ** The state snapshot *)

(** The last-known state values, keyed by capability type and instance. *)
Definition Snapshot := list (string * string * pyval).

(** Modelled from the spec: [GoveeAPI_GetCachedStateValue] of utils.py, which
    is not part of the sources at hand.  "synchronous read of last-known
    state", [-> value|None]: the value stored under the exact (type, instance)
    key, [None] when there is none. *)
Fixpoint GoveeAPI_GetCachedStateValue (s : Snapshot) (type instance : string) : pyval :=
  match s with
  | [] => VNone
  | (t, i, v) :: r =>
      if String.eqb t type && String.eqb i instance then v
      else GoveeAPI_GetCachedStateValue r type instance
  end.

Definition is_None (v : pyval) : bool :=
  match v with VNone => true | _ => false end.

(** ** The read properties *)

(** [GoveeLifeClimate.hvac_mode] *)
Definition hvac_mode (s : Snapshot) : M hvac_state :=
  let value := GoveeAPI_GetCachedStateValue s "devices.capabilities.on_off" "powerSwitch" in
  found <- (d <- gets (fun h => _attr_hvac_modes_mapping (cls h)) ;;
            lift (dict_get value d)) ;;
  let v := match found with Some m => Mode m | None => STATE_UNKNOWN end in
  match v with
  | STATE_UNKNOWN => log WARNING "hvac_mode: invalid value" ;; ret v
  | Mode _ => ret v
  end.

(** The [for preset_name, preset in ....items()] loop of [preset_mode]. *)
Fixpoint scan_presets (items : pydict Payload) (work_mode mode_value : pyval) :
  option pyval :=
  match items with
  | [] => None
  | (preset_name, preset) :: r =>
      if py_eq (workMode preset) work_mode && py_eq (modeValue preset) mode_value
      then Some preset_name
      else scan_presets r work_mode mode_value
  end.

(** [GoveeLifeClimate.preset_mode]; [VNone] is Python's [None]. *)
Definition preset_mode (h : Heap) (s : Snapshot) : result pyval :=
  let value := GoveeAPI_GetCachedStateValue s "devices.capabilities.work_mode" "workMode" in
  if negb (py_truthy value) then Ok VNone
  else
    let* work_mode := py_get value "workMode" VNone in
    let* mode_value := py_get value "modeValue" (VInt 0) in
    match scan_presets (preset_modes_mapping_set h) work_mode mode_value with
    | Some preset_name => Ok preset_name
    | None => Ok VNone
    end.

Section Units.
Context {R : PyRuntime}.

(** [UnitOfTemperature[value.get("unit", "CELSIUS").upper()]] *)
Definition unit_of_reading (value : pyval) : result UnitOfTemperature :=
  let* u := py_get value "unit" (VStr "CELSIUS") in
  let* name := py_upper u in
  UnitOfTemperature_getitem name.

(** [GoveeLifeClimate.temperature_unit] *)
Definition temperature_unit (s : Snapshot) : result UnitOfTemperature :=
  let value := GoveeAPI_GetCachedStateValue s
                 "devices.capabilities.temperature_setting" "targetTemperature" in
  if negb (is_None value) then unit_of_reading value
  else
    let value := GoveeAPI_GetCachedStateValue s
                   "devices.capabilities.temperature_setting" "sliderTemperature" in
    if negb (is_None value) then unit_of_reading value
    else Ok CELSIUS.

End Units.

Section Projector.
Context {R : PyRuntime}.

(** [GoveeLifeClimate.target_temperature] *)
Definition target_temperature (s : Snapshot) : M (option float) :=
  preset_mode <- (h <- gets (fun h => h) ;; lift (preset_mode h s)) ;;
  log DEBUG "target_temperature: current preset mode" ;;
  from_preset <-
    (if py_truthy preset_mode then
       d <- gets preset_modes_mapping_set ;;
       found <- lift (dict_get preset_mode d) ;;
       match found with
       | Some payload =>
           let mode_value := modeValue payload in
           if negb (is_None mode_value) && negb (py_eq mode_value (VInt 0))
           then f <- lift (py_float mode_value) ;; ret (Some f)
           else ret None
       | None => ret None
       end
     else ret None) ;;
  match from_preset with
  | Some f => ret (Some f)
  | None =>
      let value := GoveeAPI_GetCachedStateValue s
                     "devices.capabilities.temperature_setting" "sliderTemperature" in
      if is_None value then ret None
      else
        temperature <- lift (py_get value "targetTemperature" VNone) ;;
        if is_None temperature then ret None
        else f <- lift (py_float temperature) ;; ret (Some f)
  end.

(** [GoveeLifeClimate.current_temperature] *)
Definition current_temperature (s : Snapshot) : result (option float) :=
  let value := GoveeAPI_GetCachedStateValue s
                 "devices.capabilities.property" "sensorTemperature" in
  if is_None value || py_eq value (VStr "") then Ok None
  else
    let* unit := temperature_unit s in
    if UnitOfTemperature_eqb unit CELSIUS then
      let* f := py_float value in
      Ok (Some ((f - 32) * 5 / 9)%float)
    else
      let* f := py_float value in
      Ok (Some f).

End Projector.

(** ** The write path: the command each operation hands to
    [async_GoveeAPI_ControlDevice] *)

Record Command := {
  cmd_type : string;
  cmd_instance : string;
  cmd_value : pyval
}.

(** [GoveeLifeClimate.async_set_hvac_mode] *)
Definition async_set_hvac_mode (h : Heap) (hvac_mode : HVACMode) : result Command :=
  match hm_find hvac_mode (_attr_hvac_modes_mapping_set (cls h)) with
  | Some value =>
      Ok {| cmd_type := "devices.capabilities.on_off";
            cmd_instance := "powerSwitch";
            cmd_value := value |}
  | None => Raise KeyError
  end.

(** [GoveeLifeClimate.async_turn_off] and [async_turn_on] *)
Definition async_turn_off (h : Heap) : result Command := async_set_hvac_mode h OFF.
Definition async_turn_on (h : Heap) : result Command := async_set_hvac_mode h HEAT_COOL.

(** [GoveeLifeClimate.async_set_preset_mode]: [None] when no command is sent. *)
Definition async_set_preset_mode (preset_mode : pyval) : M (option Command) :=
  preset_value <- (d <- gets preset_modes_mapping_set ;;
                   lift (dict_get preset_mode d)) ;;
  match preset_value with
  | None => log WARNING "Unknown preset mode requested" ;; ret None
  | Some p =>
      ret (Some {| cmd_type := "devices.capabilities.work_mode";
                   cmd_instance := "workMode";
                   cmd_value := payload_to_py p |})
  end.

(** [GoveeLifeClimate.async_set_temperature], [kwargs] its keyword arguments *)
Definition async_set_temperature (s : Snapshot) (kwargs : list (string * pyval)) :
  result Command :=
  let value := GoveeAPI_GetCachedStateValue s
                 "devices.capabilities.temperature_setting" "targetTemperature" in
  let* unit := py_get value "unit" (VStr "Celsius") in
  let* temperature := py_getitem (VDict kwargs) "temperature" in
  Ok {| cmd_type := "devices.capabilities.temperature_setting";
        cmd_instance := "targetTemperature";
        cmd_value := VDict [("temperature", temperature); ("unit", unit)] |}.

(** * Specification-side definitions and sample data *)

(** A capability entry that reaches the final [else] of the dispatch: it has a
    [type], the type is none of the handled ones, and where the dispatch reads
    [instance] the entry has it. *)
Definition unrecognised (cap : pyval) : bool :=
  match py_getitem cap "type" with
  | Ok type =>
      negb (py_eq type (VStr "devices.capabilities.on_off"))
      && (if py_eq type (VStr "devices.capabilities.temperature_setting") then
            match py_getitem cap "instance" with
            | Ok i => negb (py_eq i (VStr "targetTemperature")
                            || py_eq i (VStr "sliderTemperature"))
            | Raise _ => false
            end
          else true)
      && negb (py_eq type (VStr "devices.capabilities.work_mode"))
      && (if py_eq type (VStr "devices.capabilities.property") then
            match py_getitem cap "instance" with
            | Ok i => negb (py_eq i (VStr "sensorTemperature"))
            | Raise _ => false
            end
          else true)
  | Raise _ => false
  end.

Definition cap_unhandled : LogRecord :=
  (DEBUG, "_init_platform_specific: cap unhandled").


(** A runtime at which the theorems are instantiated on sample data; the
    samples format no float, list or dict, parse no string and upper-case
    ASCII strings only. *)
Definition sample_runtime : PyRuntime :=
  {| py_repr := fun _ => "<repr>";
     float_of_str := fun _ => None;
     unicode_upper := fun s => s |}.

Definition name_value (name : string) (value : pyval) : pyval :=
  VDict [("name", VStr name); ("value", value)].

Definition on_off_cap (options : list pyval) : pyval :=
  VDict [("type", VStr "devices.capabilities.on_off");
         ("instance", VStr "powerSwitch");
         ("parameters", VDict [("dataType", VStr "ENUM"); ("options", VList options)])].

Definition power_switch_cap : pyval :=
  on_off_cap [name_value "on" (VInt 1); name_value "off" (VInt 0)].

Definition temperature_cap : pyval :=
  VDict [("type", VStr "devices.capabilities.temperature_setting");
         ("instance", VStr "targetTemperature");
         ("parameters", VDict [("fields", VList [
            VDict [("fieldName", VStr "autoStop")];
            VDict [("fieldName", VStr "temperature");
                   ("range", VDict [("min", VInt 5); ("max", VInt 30);
                                    ("precision", VInt 1)])];
            VDict [("fieldName", VStr "unit"); ("defaultValue", VStr "Celsius")]])])].

Definition work_mode_sample : pyval :=
  VDict [("type", VStr "devices.capabilities.work_mode");
         ("instance", VStr "workMode");
         ("parameters", VDict [("fields", VList [
            VDict [("fieldName", VStr "workMode");
                   ("options", VList [name_value "gearMode" (VInt 1);
                                      name_value "Fan" (VInt 9);
                                      name_value "Auto" (VInt 3)])];
            VDict [("fieldName", VStr "modeValue");
                   ("options", VList [
                      VDict [("name", VStr "gearMode");
                             ("options", VList [name_value "Low" (VInt 1);
                                                name_value "Medium" (VInt 2);
                                                name_value "High" (VInt 3)])];
                      VDict [("name", VStr "Fan")];
                      VDict [("name", VStr "Auto"); ("defaultValue", VInt 5)]])]])])].

Definition toggle_cap : pyval :=
  VDict [("type", VStr "devices.capabilities.toggle");
         ("instance", VStr "oscillationToggle")].

Definition device (capabilities : list pyval) : pyval :=
  VDict [("device", VStr "AA:BB"); ("type", VStr "devices.types.heater");
         ("capabilities", VList capabilities)].

(** A heap in which the class is as the module defines it and the entity is
    new. *)
Definition fresh (device_cfg : pyval) : Heap :=
  {| cls := GoveeLifeClimate; self := new_entity device_cfg 0 |}.

(** A capability entry with no [type]. *)
Definition cap_without_type : pyval := VDict [("instance", VStr "powerSwitch")].

Section Runs.
Context {R : PyRuntime}.

(** The heap after the first entity of a device configuration is initialised,
    and after a second entity of the same configuration is. *)
Definition first_run (device_cfg : pyval) : Heap :=
  heap (_init_platform_specific (fresh device_cfg)).

Definition second_run (device_cfg : pyval) : Heap :=
  heap (_init_platform_specific
          {| cls := cls (first_run device_cfg); self := new_entity device_cfg 0 |}).

End Runs.

(** The heap an entity built later starts from: the class as the earlier
    entities left it, and a new entity. *)
Definition later_entity (earlier : Heap) (device_cfg : pyval) : Heap :=
  {| cls := cls earlier; self := new_entity device_cfg 0 |}.

(** The [on]/[off] options of an option list, in order: [(true, v)] for an
    option named "on" with value [v], [(false, v)] for one named "off";
    options of another name are left out.  [None] when an option has no
    [name], or an on/off option has no [value] or an unhashable one. *)
Fixpoint named_switches (opts : list pyval) : option (list (bool * pyval)) :=
  match opts with
  | [] => Some []
  | o :: r =>
      match py_getitem o "name" with
      | Ok n =>
          if py_eq n (VStr "on") || py_eq n (VStr "off") then
            match py_getitem o "value" with
            | Ok v =>
                if hashable v
                then option_map (cons (py_eq n (VStr "on"), v)) (named_switches r)
                else None
            | Raise _ => None
            end
          else named_switches r
      | Raise _ => None
      end
  end.

(** What one on/off option does to the heap. *)
Definition apply_switch (h : Heap) (sw : bool * pyval) : Heap :=
  let (on, v) := sw in
  let m := if on then HEAT_COOL else OFF in
  let h1 := with_self h (set_supported_features (self h)
              (Z.lor (_attr_supported_features (self h)) (if on then TURN_ON else TURN_OFF))) in
  let h2 := with_cls h1 (set_hvac_modes (cls h1) (_attr_hvac_modes (cls h1) ++ [m])) in
  let h3 := with_cls h2 (set_hvac_modes_mapping (cls h2)
                           (pd_set v m (_attr_hvac_modes_mapping (cls h2)))) in
  with_cls h3 (set_hvac_modes_mapping_set (cls h3)
                 (hm_set m v (_attr_hvac_modes_mapping_set (cls h3)))).

(** The options of an on_off capability, as the parser reaches them. *)
Definition on_off_options (cap : pyval) : result (list pyval) :=
  let* p := py_getitem cap "parameters" in
  let* o := py_getitem p "options" in
  py_iter o.

(** [set(l) == set(keys)], with the [==] of Python on the elements. *)
Definition same_names (l keys : list pyval) : Prop :=
  (forall x, In x l -> exists k, In k keys /\ py_eq x k = true) /\
  (forall k, In k keys -> exists x, In x l /\ py_eq k x = true).

(** The preset names and the keys of the payload dict are the same set. *)
Definition names_agree (h : Heap) : Prop :=
  same_names (preset_modes h) (pd_keys (preset_modes_mapping_set h)).

(** A triple for runs that return: from a heap in [P], a run of [m] that
    returns [a] ends in a heap in [Q a]. *)
Definition hoare {A} (P : Heap -> Prop) (m : M A) (Q : A -> Heap -> Prop) : Prop :=
  forall h, P h -> forall a, res (m h) = Ok a -> Q a (heap (m h)).

Definition rmap {A B} (f : A -> B) (r : result A) : result B :=
  match r with Ok a => Ok (f a) | Raise e => Raise e end.

(** Two stored payloads are the same [{workMode, modeValue}] pair. *)
Definition payload_matches (p : Payload) (stored : pyval * Payload) : bool :=
  py_eq (workMode (snd stored)) (workMode p)
  && py_eq (modeValue (snd stored)) (modeValue p).

(** The name of the first item of [items] that satisfies [f], else [default]. *)
Definition first_name (f : pyval * Payload -> bool) (items : pydict Payload)
  (default : pyval) : pyval :=
  match find f items with
  | Some item => fst item
  | None => default
  end.

Definition work_mode_key : string * string := ("devices.capabilities.work_mode", "workMode").
Definition slider_key : string * string :=
  ("devices.capabilities.temperature_setting", "sliderTemperature").
Definition target_key : string * string :=
  ("devices.capabilities.temperature_setting", "targetTemperature").
Definition sensor_key : string * string :=
  ("devices.capabilities.property", "sensorTemperature").
Definition power_key : string * string := ("devices.capabilities.on_off", "powerSwitch").

(** The snapshot value under a key. *)
Definition reading (s : Snapshot) (key : string * string) : pyval :=
  GoveeAPI_GetCachedStateValue s (fst key) (snd key).

(** The sensor reading 98.6. *)
Definition reading_98_6 : pyval := VFloat (mk_pyfloat 98.6%float eq_refl).

(** A heater initialised from the sample capabilities, and snapshots of it. *)
Definition sample_heap : Heap :=
  heap (@_init_platform_specific sample_runtime
          (fresh (device [power_switch_cap; temperature_cap; work_mode_sample]))).

Definition snapshot_auto : Snapshot :=
  [("devices.capabilities.work_mode", "workMode",
    VDict [("workMode", VInt 3); ("modeValue", VInt 5)]);
   ("devices.capabilities.temperature_setting", "sliderTemperature",
    VDict [("targetTemperature", VInt 20); ("unit", VStr "Celsius")])].

Definition snapshot_fan : Snapshot :=
  [("devices.capabilities.work_mode", "workMode", VDict [("workMode", VInt 9)]);
   ("devices.capabilities.temperature_setting", "sliderTemperature",
    VDict [("targetTemperature", VInt 20); ("unit", VStr "Celsius")])].

Definition snapshot_sensor (unit : string) : Snapshot :=
  [("devices.capabilities.property", "sensorTemperature", reading_98_6);
   ("devices.capabilities.temperature_setting", "targetTemperature",
    VDict [("targetTemperature", VInt 20); ("unit", VStr unit)])].

(** A snapshot whose targetTemperature reading carries the unit "C". *)
Definition snapshot_unit_c : Snapshot :=
  [("devices.capabilities.temperature_setting", "targetTemperature",
    VDict [("targetTemperature", VInt 20); ("unit", VStr "C")])].

(** A snapshot of a device that reports only a sliderTemperature. *)
Definition snapshot_slider_only : Snapshot :=
  [("devices.capabilities.temperature_setting", "sliderTemperature",
    VDict [("targetTemperature", VInt 20); ("unit", VStr "Celsius")])].

(** A triple for every run, returned or raised: from a heap in [P] the run of
    [m] ends in a heap in [Q]. *)
Definition ends_in {A} (P : Heap -> Prop) (m : M A) (Q : Heap -> Prop) : Prop :=
  forall h, P h -> Q (heap (m h)).

(** The two preset dicts of the class. *)
Definition class_preset_maps (h : Heap) : pydict pyval * pydict Payload :=
  (_attr_preset_modes_mapping (cls h), _attr_preset_modes_mapping_set (cls h)).

(** The entity has bound its own two preset dicts. *)
Definition owns_preset_maps (h : Heap) : Prop :=
  own_preset_modes_mapping (self h) <> None
  /\ own_preset_modes_mapping_set (self h) <> None.

(** The preset list of the class is out of the entity's reach: it is not
    empty, or the entity has bound a list of its own. *)
Definition class_list_shielded (h : Heap) : Prop :=
  _attr_preset_modes (cls h) <> [] \/ own_preset_modes (self h) <> None.

(** Between capabilities: the dicts of the class are [c] and, under [G], its
    list is [l] and out of reach. *)
Definition class_presets_kept (c : pydict pyval * pydict Payload) (l : list pyval)
  (G : Prop) (h : Heap) : Prop :=
  class_preset_maps h = c
  /\ (G -> _attr_preset_modes (cls h) = l /\ class_list_shielded h).

(** After the three assignments of the work_mode branch: the entity has its
    own dicts and, under [G], its own list. *)
Definition class_presets_owned (c : pydict pyval * pydict Payload) (l : list pyval)
  (G : Prop) (h : Heap) : Prop :=
  owns_preset_maps h /\ class_preset_maps h = c
  /\ (G -> _attr_preset_modes (cls h) = l /\ own_preset_modes (self h) <> None).

(** The feature flags of [f] are among those of [g]. *)
Definition flags_within (f g : Z) : Prop := Z.land f g = f.

(** What a run may do to the feature flags, the hvac list and the device
    configuration: add flags, append HEAT_COOL and OFF, and nothing. *)
Definition only_added (h0 h : Heap) : Prop :=
  flags_within (_attr_supported_features (self h0)) (_attr_supported_features (self h))
  /\ (exists added,
        _attr_hvac_modes (cls h) = _attr_hvac_modes (cls h0) ++ added
        /\ Forall (fun m => m = HEAT_COOL \/ m = OFF) added)
  /\ _device_cfg (self h) = _device_cfg (self h0).

(** The modes of the hvac list are the keys of the reverse map. *)
Definition modes_are_reverse_keys (h : Heap) : Prop :=
  forall m, In m (_attr_hvac_modes (cls h))
            <-> hm_find m (_attr_hvac_modes_mapping_set (cls h)) <> None.

(** Every preset name is hashable. *)
Definition names_hashable (h : Heap) : Prop :=
  Forall (fun x => hashable x = true) (preset_modes h).

(** The unit a temperature command carries, when it is a string. *)
Definition command_unit (cmd : Command) : option string :=
  match cmd_value cmd with
  | VDict d => match dict_find "unit" d with Some (VStr u) => Some u | _ => None end
  | _ => None
  end.

(** The fields of a work_mode capability, as the parser reaches them. *)
Definition work_mode_fields (cap : pyval) : result (list pyval) :=
  let* p := py_getitem cap "parameters" in
  let* f := py_getitem p "fields" in
  py_iter f.

(** The [(name, value)] pairs of a list of levels; [None] when a level lacks
    one of the two. *)
Fixpoint level_pairs (levels : list pyval) : option (list (pyval * pyval)) :=
  match levels with
  | [] => Some []
  | level :: r =>
      match py_getitem level "name", py_getitem level "value" with
      | Ok n, Ok v => option_map (cons (n, v)) (level_pairs r)
      | _, _ => None
      end
  end.

(** The options of the modeValue field, as the parser reaches them. *)
Definition mode_options (mode_field : pyval) : result (list pyval) :=
  let* o := py_get mode_field "options" (VList []) in
  py_iter o.

(** The levels of a modeValue sub-option, as the parser reaches them. *)
Definition sub_levels (sub : pyval) : result (list pyval) :=
  let* o := py_get sub "options" (VList []) in
  py_iter o.

(** An option of the modeValue field that is not named [name]. *)
Definition other_name (name f : pyval) : Prop :=
  exists n, py_get f "name" VNone = Ok n /\ py_eq n name = false.

Section Composite.
Context {R : PyRuntime}.

(** The text of [f"{name}-{level_name}"]. *)
Definition composite (name level_name : pyval) : string :=
  String.append (py_str name) (String.append "-" (py_str level_name)).

End Composite.

(** The mode a switch stands for. *)
Definition switch_mode (on : bool) : HVACMode := if on then HEAT_COOL else OFF.

(** A snapshot that holds one powerSwitch reading. *)
Definition power_snapshot (value : pyval) : Snapshot :=
  [("devices.capabilities.on_off", "powerSwitch", value)].

(** ** Platform setup ([async_setup_entry]) *)

Definition PLATFORM_DEVICE_TYPES : list pyval :=
  [VStr "devices.types.heater"; VStr "devices.types.kettle"].

(** [x in l] on a list: some element is equal to [x]. *)
Definition py_in (x : pyval) (l : list pyval) : bool := existsb (py_eq x) l.

(** [d[k]] on a dict with keys of any kind *)
Definition dict_getitem {V} (k : pyval) (d : pydict V) : result V :=
  let* found := dict_get k d in
  match found with
  | Some v => Ok v
  | None => Raise KeyError
  end.

(** The data of one config entry, [hass.data[DOMAIN][entry.entry_id]]: what it
    has under the keys CONF_DEVICES and CONF_COORDINATORS, [None] for a key it
    lacks. *)
Record EntryData (Coordinator : Type) := {
  CONF_DEVICES : option pyval;
  CONF_COORDINATORS : option (pydict Coordinator)
}.
Arguments CONF_DEVICES {Coordinator} e.
Arguments CONF_COORDINATORS {Coordinator} e.

(** How the device loop ends: it ran through, or a turn raised and the handler
    returned. *)
Inductive loop_end (EntityObj : Type) :=
| Completed (entities : list EntityObj)
| Failed (e : exn).
Arguments Completed {EntityObj} entities.
Arguments Failed {EntityObj} e.

(** What a call leaves: the list handed to [async_add_entities] ([None] when
    it is not called), the records logged, and the world. *)
Record SetupOutcome (EntityObj World : Type) := {
  added : option (list EntityObj);
  setup_logs : list LogRecord;
  world : World
}.
Arguments added {EntityObj World} s.
Arguments setup_logs {EntityObj World} s.
Arguments world {EntityObj World} s.

Section Setup.

(** Coordinators and entities are objects of the framework.  [World] is
    whatever the constructor of an entity reads and changes, the class
    attributes among it. *)
Context {Coordinator EntityObj World : Type}.

(** [GoveeLifeClimate(hass, entry, coordinator, device_cfg, platform=PLATFORM)].
    The constructor is inherited from entities.py; it is a parameter of what
    follows: any function that returns an entity or raises, and leaves a
    world. *)
Variable construct : Coordinator -> pyval -> World -> result EntityObj * World.

(** The [try] body of one turn of [for device_cfg in api_devices]: [None] for
    [continue], the entity when one is built.  [await asyncio.sleep(0)] only
    hands control to the event loop and is left out. *)
Definition setup_device (entry_data : EntryData Coordinator) (device_cfg : pyval)
  (w : World) : result (option EntityObj) * World :=
  match py_get device_cfg "type" VNone with
  | Raise e => (Raise e, w)
  | Ok type =>
      if negb (py_in type PLATFORM_DEVICE_TYPES) then (Ok None, w)
      else
        match (let* device := py_get device_cfg "device" VNone in
               let* coordinators :=
                 match CONF_COORDINATORS entry_data with
                 | Some c => Ok c
                 | None => Raise KeyError
                 end in
               dict_getitem device coordinators) with
        | Raise e => (Raise e, w)
        | Ok coordinator =>
            let (r, w') := construct coordinator device_cfg w in
            (rmap Some r, w')
        end
  end.

(** [for device_cfg in api_devices], with the [except] handler that returns. *)
Fixpoint setup_loop (entry_data : EntryData Coordinator) (api_devices : list pyval)
  (entities : list EntityObj) (w : World) : loop_end EntityObj * World :=
  match api_devices with
  | [] => (Completed entities, w)
  | device_cfg :: rest =>
      match setup_device entry_data device_cfg w with
      | (Ok None, w') => setup_loop entry_data rest entities w'
      | (Ok (Some entity), w') => setup_loop entry_data rest (entities ++ [entity]) w'
      | (Raise e, w') => (Failed e, w')
      end
  end.

(** The first [try]: [hass.data[DOMAIN][entry.entry_id]] and its device list.
    [domain_data] is what [hass.data] has under DOMAIN, [None] when it has
    nothing. *)
Definition cloud_devices (domain_data : option (list (string * EntryData Coordinator)))
  (entry_id : string) : result (EntryData Coordinator * pyval) :=
  let* entries := match domain_data with Some d => Ok d | None => Raise KeyError end in
  let* entry_data := match dict_find entry_id entries with
                     | Some e => Ok e
                     | None => Raise KeyError
                     end in
  let* api_devices := match CONF_DEVICES entry_data with
                      | Some l => Ok l
                      | None => Raise KeyError
                      end in
  Ok (entry_data, api_devices).

(** [async_setup_entry].  [iter(api_devices)] is outside both [try] blocks:
    what it raises leaves the function. *)
Definition async_setup_entry (domain_data : option (list (string * EntryData Coordinator)))
  (entry_id : string) (w : World) : result (SetupOutcome EntityObj World) :=
  let start := (DEBUG, "Setting up platform entry") in
  match cloud_devices domain_data entry_id with
  | Raise _ =>
      Ok {| added := None;
            setup_logs := [start; (ERROR, "Failed to get cloud devices from data store")];
            world := w |}
  | Ok (entry_data, api_devices) =>
      let* devices := py_iter api_devices in
      match setup_loop entry_data devices [] w with
      | (Failed _, w') =>
          Ok {| added := None;
                setup_logs := [start; (ERROR, "Failed to setup device")];
                world := w' |}
      | (Completed entities, w') =>
          Ok {| added := match entities with [] => None | _ => Some entities end;
                setup_logs := [start];
                world := w' |}
      end
  end.

(** The device is of a type this platform handles. *)
Definition is_platform_device (device_cfg : pyval) : bool :=
  match py_get device_cfg "type" VNone with
  | Ok type => py_in type PLATFORM_DEVICE_TYPES
  | Raise _ => false
  end.

(** [entry_data[CONF_COORDINATORS][device_cfg.get('device')]] *)
Definition coordinator_for (entry_data : EntryData Coordinator) (device_cfg : pyval) :
  result Coordinator :=
  let* device := py_get device_cfg "device" VNone in
  let* coordinators :=
    match CONF_COORDINATORS entry_data with
    | Some c => Ok c
    | None => Raise KeyError
    end in
  dict_getitem device coordinators.

(** [builds entry_data devices w entities w']: the entities are what the
    constructor returned for the devices, one for each and in their order,
    each built with the coordinator of its device and from the world the one
    before left; [w'] is the world the last one left. *)
Inductive builds (entry_data : EntryData Coordinator) :
  list pyval -> World -> list EntityObj -> World -> Prop :=
| builds_nil w : builds entry_data [] w [] w
| builds_cons device_cfg devices coordinator entity entities w w1 w2 :
    coordinator_for entry_data device_cfg = Ok coordinator ->
    construct coordinator device_cfg w = (Ok entity, w1) ->
    builds entry_data devices w1 entities w2 ->
    builds entry_data (device_cfg :: devices) w (entity :: entities) w2.

End Setup.

(** A device configuration of a type, with an id. *)
Definition device_of_type (type id : string) : pyval :=
  VDict [("type", VStr type); ("device", VStr id)].

(** A constructor for examples: the entity is its configuration, the world
    counts the constructions. *)
Definition counting_construct (_ : unit) (device_cfg : pyval) (w : nat) :
  result pyval * nat :=
  (Ok device_cfg, S w).

(** An entry with two heaters, the second without a coordinator. *)
Definition entry_missing_coordinator : EntryData unit :=
  {| CONF_DEVICES := Some (VList [device_of_type "devices.types.heater" "H1";
                                   device_of_type "devices.types.heater" "H2";
                                   device_of_type "devices.types.kettle" "K1"]);
     CONF_COORDINATORS := Some [(VStr "H1", tt); (VStr "K1", tt)] |}.

(** An entry with a heater, a light and a kettle. *)
Definition entry_mixed : EntryData unit :=
  {| CONF_DEVICES := Some (VList [device_of_type "devices.types.heater" "H1";
                                   device_of_type "devices.types.light" "L1";
                                   device_of_type "devices.types.kettle" "K1"]);
     CONF_COORDINATORS := Some [(VStr "H1", tt); (VStr "K1", tt)] |}.

(** * Properties *)

(** ** Equality of Python values *)

(** The induction principle that reaches inside lists and dicts. *)
Lemma pyval_nested_ind (P : pyval -> Prop) :
  P VNone -> (forall b, P (VBool b)) -> (forall z, P (VInt z)) ->
  (forall f, P (VFloat f)) -> (forall s, P (VStr s)) ->
  (forall l, Forall P l -> P (VList l)) ->
  (forall d, Forall (fun kv => P (snd kv)) d -> P (VDict d)) ->
  forall v, P v.
Proof.
  intros HN HB HI HF HS HL HD.
  fix IH 1. intros [ | b | z | f | s | l | d ].
  - exact HN.
  - apply HB.
  - apply HI.
  - apply HF.
  - apply HS.
  - apply HL. induction l as [ | x l IHl ]; constructor; [ apply IH | exact IHl ].
  - apply HD. induction d as [ | [k x] d IHd ]; constructor; [ apply IH | exact IHd ].
Qed.

Lemma numkey_eqb_eq x y : numkey_eqb x y = true -> x = y.
Proof.
  destruct x as [n e | s | ], y as [n' e' | s' | ]; simpl; try discriminate.
  - intros H. apply andb_true_iff in H as [Hn He].
    apply Z.eqb_eq in Hn, He. now subst.
  - intros H. apply Bool.eqb_prop in H. now subst.
Qed.

Lemma numkey_eqb_refl x : x <> KNaN -> numkey_eqb x x = true.
Proof.
  destruct x as [n e | s | ]; simpl; intros H.
  - now rewrite !Z.eqb_refl.
  - apply Bool.eqb_reflx.
  - now elim H.
Qed.

Lemma numkey_eqb_sym x y : numkey_eqb x y = numkey_eqb y x.
Proof.
  destruct x as [n e | s | ], y as [n' e' | s' | ]; simpl; trivial.
  - now rewrite (Z.eqb_sym n), (Z.eqb_sym e).
  - now destruct s, s'.
Qed.

Lemma numkey_eqb_trans x y z :
  numkey_eqb x y = true -> numkey_eqb y z = true -> numkey_eqb x z = true.
Proof.
  intros Hxy Hyz. apply numkey_eqb_eq in Hxy as ->. exact Hyz.
Qed.

Lemma key_of_Z_not_nan z e : key_of_Z z e <> KNaN.
Proof.
  unfold key_of_Z. destruct z as [ | p | p ]; try destruct (strip2 p); discriminate.
Qed.

Lemma key_of_float_not_nan f : not_nan f = true -> key_of_float f <> KNaN.
Proof.
  unfold not_nan, key_of_float.
  destruct (Prim2SF f); try discriminate. intros _. apply key_of_Z_not_nan.
Qed.

Lemma py_num_not_nan v k : py_num v = Some k -> k <> KNaN.
Proof.
  destruct v; simpl; try discriminate; intros [= <-].
  - apply key_of_Z_not_nan.
  - apply key_of_Z_not_nan.
  - apply key_of_float_not_nan, fval_ok.
Qed.

Lemma str_mem_cons k k' l : str_mem k (k' :: l) = String.eqb k k' || str_mem k l.
Proof. reflexivity. Qed.

Lemma dict_find_app_fresh {V} k (v : V) pre r :
  str_mem k (map fst pre) = false -> dict_find k (pre ++ (k, v) :: r) = Some v.
Proof.
  induction pre as [ | [k' v'] pre IH ]; simpl.
  - now rewrite String.eqb_refl.
  - intros H. apply orb_false_iff in H as [Hk Hm]. rewrite Hk. now apply IH.
Qed.

Lemma list_eq_by_refl eq l :
  Forall (fun x => eq x x = true) l -> list_eq_by eq l l = true.
Proof.
  induction 1 as [ | x l Hx _ IH ]; simpl; trivial. now rewrite Hx.
Qed.

Lemma dict_le_by_refl eq pre seen d :
  Forall (fun kv => eq (snd kv) (snd kv) = true) d ->
  (forall k, str_mem k seen = str_mem k (map fst pre)) ->
  dict_le_by eq (pre ++ d) seen d = true.
Proof.
  intros Hd. revert pre seen.
  induction Hd as [ | [k v] d Hv _ IH ]; intros pre seen Hseen; simpl; trivial.
  apply andb_true_iff. split.
  - destruct (str_mem k seen) eqn:Hk; trivial. simpl.
    rewrite dict_find_app_fresh by (now rewrite <- Hseen). exact Hv.
  - replace (pre ++ (k, v) :: d) with ((pre ++ [(k, v)]) ++ d)
      by (now rewrite <- app_assoc).
    apply IH. intros k0. rewrite map_app, str_mem_cons. unfold str_mem at 2.
    rewrite existsb_app. simpl. fold (str_mem k0 (map fst pre)).
    rewrite Hseen. now rewrite orb_false_r, orb_comm.
Qed.

Lemma keys_mem_self (d pre : list (string * pyval)) :
  forallb (fun kv => str_mem (fst kv) (map fst (pre ++ d))) d = true.
Proof.
  revert pre. induction d as [ | [k v] d IH ]; intros pre; simpl; trivial.
  apply andb_true_iff. split.
  - unfold str_mem. rewrite map_app, existsb_app. simpl.
    now rewrite String.eqb_refl, orb_true_r.
  - replace (pre ++ (k, v) :: d) with ((pre ++ [(k, v)]) ++ d)
      by (now rewrite <- app_assoc).
    apply IH.
Qed.

(** [v == v] holds for every value (there is no NaN among them). *)
Lemma py_eq_refl : forall v, py_eq v v = true.
Proof.
  induction v as [ | b | z | f | s | l IH | d IH ] using pyval_nested_ind; simpl.
  - reflexivity.
  - apply numkey_eqb_refl, key_of_Z_not_nan.
  - apply numkey_eqb_refl, key_of_Z_not_nan.
  - apply numkey_eqb_refl, key_of_float_not_nan, fval_ok.
  - apply String.eqb_refl.
  - now apply list_eq_by_refl.
  - apply andb_true_iff. split.
    + apply (keys_mem_self d []).
    + now apply (dict_le_by_refl py_eq [] []).
Qed.

(** On hashable values [==] is symmetric and transitive. *)
Lemma py_eq_sym_hashable a b :
  hashable a = true -> hashable b = true -> py_eq a b = py_eq b a.
Proof.
  destruct a, b; simpl; try discriminate; intros _ _; trivial;
    try apply numkey_eqb_sym.
  apply String.eqb_sym.
Qed.

Lemma py_eq_trans_hashable a b c :
  hashable a = true -> hashable b = true -> hashable c = true ->
  py_eq a b = true -> py_eq b c = true -> py_eq a c = true.
Proof.
  destruct a, b; simpl; try discriminate; intros _ _;
    destruct c; simpl; try discriminate; intros _; trivial;
    try apply numkey_eqb_trans.
  intros H1 H2. apply String.eqb_eq in H1, H2. subst. apply String.eqb_refl.
Qed.

(** ** Running the parser's loops *)

Lemma outcome_eq {A} (o o' : Outcome A) :
  res o = res o' -> heap o = heap o' -> logs o = logs o' -> o = o'.
Proof. destruct o, o'; simpl; intros; subst; reflexivity. Qed.

Lemma bind_ret_l {A B} (a : A) (k : A -> M B) h : bind (ret a) k h = k a h.
Proof. unfold bind, ret; simpl. apply outcome_eq; reflexivity. Qed.

Lemma lift_ok {A} (a : A) : lift (Ok a) = ret a.
Proof. reflexivity. Qed.

Lemma bind_assoc {A B C} (m : M A) (k : A -> M B) (k' : B -> M C) h :
  bind (bind m k) k' h = bind m (fun a => bind (k a) k') h.
Proof.
  unfold bind. destruct (res (m h)) eqn:Hm; simpl; trivial.
  destruct (res (k a (heap (m h)))) eqn:Hk; simpl; trivial.
  now rewrite <- app_assoc.
Qed.

Lemma bind_ok {A B} (m : M A) (k : A -> M B) h a :
  res (m h) = Ok a ->
  bind m k h = {| res := res (k a (heap (m h)));
                  heap := heap (k a (heap (m h)));
                  logs := logs (m h) ++ logs (k a (heap (m h))) |}.
Proof. intros H. unfold bind. now rewrite H. Qed.

Lemma bind_raise {A B} (m : M A) (k : A -> M B) h e :
  res (m h) = Raise e ->
  bind m k h = {| res := Raise e; heap := heap (m h); logs := logs (m h) |}.
Proof. intros H. unfold bind. now rewrite H. Qed.

Lemma bind_ext {A B} (m : M A) (k k' : A -> M B) h :
  (forall a h', k a h' = k' a h') -> bind m k h = bind m k' h.
Proof. intros H. unfold bind. destruct (res (m h)); trivial. now rewrite H. Qed.

(** A loop over [l1 ++ l2] is the loop over [l1] followed by the loop over [l2]. *)
Lemma for_each_app {X} (l1 l2 : list X) (body : X -> M unit) h :
  for_each (l1 ++ l2) body h = bind (for_each l1 body) (fun _ => for_each l2 body) h.
Proof.
  revert h. induction l1 as [ | x l1 IH ]; intros h; simpl.
  - now rewrite bind_ret_l.
  - rewrite bind_assoc. apply bind_ext. intros _ h'. apply IH.
Qed.

(** ** C1: entries the parser does not recognise *)

Section ParserFacts.
Context {R : PyRuntime}.

Lemma process_cap_unrecognised cap h :
  unrecognised cap = true ->
  process_cap cap h = {| res := Ok tt; heap := h; logs := [cap_unhandled] |}.
Proof.
  unfold unrecognised, process_cap. intros H.
  destruct (py_getitem cap "type") as [type | ] eqn:Ht; try discriminate.
  apply andb_true_iff in H as [H Hprop].
  apply andb_true_iff in H as [H Hwork].
  apply andb_true_iff in H as [Hon Htemp].
  apply negb_true_iff in Hon, Hwork.
  unfold bind at 1, lift at 1. simpl. rewrite Hon.
  destruct (py_eq type (VStr "devices.capabilities.temperature_setting")).
  - destruct (py_getitem cap "instance") as [i | ]; try discriminate.
    apply negb_true_iff in Htemp.
    unfold bind, lift, ret; simpl. rewrite Htemp, Hwork. simpl.
    destruct (py_eq type (VStr "devices.capabilities.property")); simpl.
    + apply negb_true_iff in Hprop. rewrite Hprop. reflexivity.
    + reflexivity.
  - unfold bind, lift, ret; simpl. rewrite Hwork.
    destruct (py_eq type (VStr "devices.capabilities.property")); simpl.
    + destruct (py_getitem cap "instance") as [i | ]; try discriminate.
      apply negb_true_iff in Hprop. simpl. rewrite Hprop. reflexivity.
    + reflexivity.
Qed.

(** The loop with an unrecognised entry ends as the loop without it does. *)
Lemma for_each_skip_unrecognised before cap after h :
  unrecognised cap = true ->
  let o := for_each (before ++ cap :: after) process_cap h in
  let o' := for_each (before ++ after) process_cap h in
  res o = res o' /\ heap o = heap o' /\
  (is_ok (res (for_each before process_cap h)) = true -> In cap_unhandled (logs o)).
Proof.
  intros Hcap. cbv zeta. rewrite !for_each_app.
  destruct (res (for_each before process_cap h)) as [[] | e] eqn:Hb.
  - rewrite !(bind_ok _ _ _ _ Hb). simpl.
    rewrite (bind_ok _ _ _ tt) by (now rewrite process_cap_unrecognised).
    rewrite process_cap_unrecognised by exact Hcap. simpl.
    repeat split. intros _. apply in_or_app. right. now left.
  - rewrite !(bind_raise _ _ _ _ Hb). simpl. repeat split. discriminate.
Qed.

Lemma init_runs_the_loop h cfg caps :
  _device_cfg (self h) = VDict cfg ->
  dict_find "capabilities" cfg = Some (VList caps) ->
  let o := _init_platform_specific h in
  let o' := for_each caps process_cap h in
  res o = res o' /\ heap o = heap o' /\
  logs o = (DEBUG, "_init_platform_specific")
           :: (DEBUG, "_init_platform_specific: processing devices request capabilities")
           :: logs o'.
Proof.
  intros Hcfg Hcaps. unfold _init_platform_specific, bind, log, gets, lift; simpl.
  rewrite Hcfg. simpl. rewrite Hcaps. simpl.
  destruct (res (for_each caps process_cap h)); repeat split; trivial.
Qed.

End ParserFacts.

(** C1, as amended: a capability entry of a kind the parser does not
    recognise (it has a [type], none of the handled ones, and an [instance]
    where the dispatch reads it) does not raise: it is logged at debug level
    and skipped, and the initialisation ends, in result and in heap, as the
    loop over the remaining capabilities does. *)
Theorem unrecognised_capability_is_skipped
  (R : PyRuntime) (h : Heap) (cfg : list (string * pyval))
  (before after : list pyval) (cap : pyval) :
  _device_cfg (self h) = VDict cfg ->
  dict_find "capabilities" cfg = Some (VList (before ++ cap :: after)) ->
  unrecognised cap = true ->
  let o := _init_platform_specific h in
  let o' := for_each (before ++ after) process_cap h in
  res o = res o' /\ heap o = heap o' /\
  (is_ok (res (for_each before process_cap h)) = true -> In cap_unhandled (logs o)).
Proof.
  intros Hcfg Hcaps Hcap. cbv zeta.
  destruct (init_runs_the_loop h cfg _ Hcfg Hcaps) as (Hr & Hh & Hl).
  destruct (for_each_skip_unrecognised before cap after h Hcap) as (Hr' & Hh' & Hl').
  split; [ | split ].
  - now rewrite Hr.
  - now rewrite Hh.
  - intros Hb. rewrite Hl. right. right. now apply Hl'.
Qed.

Lemma unrecognised_capability_is_skipped_witness :
  let h := fresh (device [power_switch_cap; toggle_cap; work_mode_sample]) in
  let o := @_init_platform_specific sample_runtime h in
  let o' := for_each ([power_switch_cap] ++ [work_mode_sample])
              (@process_cap sample_runtime) h in
  res o = res o' /\ heap o = heap o' /\
  (is_ok (res (for_each [power_switch_cap] (@process_cap sample_runtime) h)) = true ->
   In cap_unhandled (logs o)).
Proof.
  apply (unrecognised_capability_is_skipped sample_runtime
           (fresh (device [power_switch_cap; toggle_cap; work_mode_sample]))
           [("device", VStr "AA:BB"); ("type", VStr "devices.types.heater");
            ("capabilities", VList [power_switch_cap; toggle_cap; work_mode_sample])]
           [power_switch_cap] [work_mode_sample] toggle_cap);
    vm_compute; reflexivity.
Defined.

(** C1, as stated, fails: a capability entry without a [type] makes
    [_init_platform_specific] raise [KeyError], whatever the runtime, and the
    well-formed capability after it is never reached. *)
Lemma capability_without_type_raises :
  ~ (exists R : PyRuntime,
       is_ok (res (@_init_platform_specific R
                     (fresh (device [cap_without_type; power_switch_cap])))) = true).
Proof. intros [R H]. vm_compute in H. discriminate. Qed.

Example capability_without_type_keyerror (R : PyRuntime) :
  let o := _init_platform_specific (fresh (device [cap_without_type; power_switch_cap])) in
  res o = Raise KeyError /\ _attr_hvac_modes (cls (heap o)) = [].
Proof. split; vm_compute; reflexivity. Qed.

(** ** C2: the parser run twice *)

(** C2 fails on the code: the hvac containers belong to the class, so the run
    for a second entity of the same capability list appends to the list the
    first run filled. *)
Theorem second_run_repeats_hvac_modes (R : PyRuntime) :
  _attr_hvac_modes (cls (first_run (device [power_switch_cap]))) = [HEAT_COOL; OFF] /\
  _attr_hvac_modes (cls (second_run (device [power_switch_cap])))
  = [HEAT_COOL; OFF; HEAT_COOL; OFF].
Proof. split; vm_compute; reflexivity. Qed.

(** The other five components do come out equal on that input. *)
Example second_run_keeps_the_maps (R : PyRuntime) :
  let h1 := first_run (device [power_switch_cap; work_mode_sample]) in
  let h2 := second_run (device [power_switch_cap; work_mode_sample]) in
  _attr_hvac_modes_mapping (cls h2) = _attr_hvac_modes_mapping (cls h1) /\
  _attr_hvac_modes_mapping_set (cls h2) = _attr_hvac_modes_mapping_set (cls h1) /\
  preset_modes h2 = preset_modes h1 /\
  preset_modes_mapping h2 = preset_modes_mapping h1 /\
  preset_modes_mapping_set h2 = preset_modes_mapping_set h1.
Proof.
  cbv zeta. split; [ | split; [ | split; [ | split ] ] ]; vm_compute; reflexivity.
Qed.

(** ** Python dicts: lookup after assignment *)

Lemma py_eq_hashable_l a b : hashable b = true -> py_eq a b = true -> hashable a = true.
Proof. destruct a, b; simpl; trivial; discriminate. Qed.

Lemma pd_find_set_same {V} (k : pyval) (v : V) (d : pydict V) :
  pd_find k (pd_set k v d) = Some v.
Proof.
  induction d as [ | [k' v'] d IH ]; simpl.
  - now rewrite py_eq_refl.
  - destruct (py_eq k' k) eqn:Hk; simpl; now rewrite Hk.
Qed.

Lemma pd_find_set_other {V} (k k2 : pyval) (v : V) (d : pydict V) :
  hashable k = true -> hashable k2 = true -> py_eq k k2 = false ->
  pd_find k2 (pd_set k v d) = pd_find k2 d.
Proof.
  intros Hk Hk2 Hne. induction d as [ | [k' v'] d IH ]; simpl.
  - now rewrite Hne.
  - destruct (py_eq k' k) eqn:E; simpl.
    + destruct (py_eq k' k2) eqn:E2; trivial.
      assert (Hk' : hashable k' = true) by (now apply (py_eq_hashable_l k' k)).
      rewrite (py_eq_sym_hashable k' k) in E by assumption.
      now rewrite (py_eq_trans_hashable k k' k2 Hk Hk' Hk2 E E2) in Hne.
    + now rewrite IH.
Qed.

Lemma HVACMode_eqb_refl m : HVACMode_eqb m m = true.
Proof. now destruct m. Qed.

Lemma HVACMode_eqb_eq m m' : HVACMode_eqb m m' = true -> m = m'.
Proof. destruct m, m'; simpl; trivial; discriminate. Qed.

Lemma hm_find_set_same m v d : hm_find m (hm_set m v d) = Some v.
Proof.
  induction d as [ | [m' v'] d IH ]; simpl.
  - now rewrite HVACMode_eqb_refl.
  - destruct (HVACMode_eqb m' m) eqn:E; simpl; now rewrite E.
Qed.

Lemma hm_find_set_other m m2 v d :
  m <> m2 -> hm_find m2 (hm_set m v d) = hm_find m2 d.
Proof.
  intros Hne. induction d as [ | [m' v'] d IH ]; simpl.
  - destruct (HVACMode_eqb m m2) eqn:E; trivial. now apply HVACMode_eqb_eq in E.
  - destruct (HVACMode_eqb m' m) eqn:E; simpl.
    + destruct (HVACMode_eqb m' m2) eqn:E2; trivial.
      apply HVACMode_eqb_eq in E, E2. congruence.
    + now rewrite IH.
Qed.

(** ** C3: the on_off capability *)

Section OnOff.
Context {R : PyRuntime}.

Lemma on_off_option_switch o n v h :
  py_getitem o "name" = Ok n ->
  py_eq n (VStr "on") || py_eq n (VStr "off") = true ->
  py_getitem o "value" = Ok v -> hashable v = true ->
  on_off_option o h
  = {| res := Ok tt; heap := apply_switch h (py_eq n (VStr "on"), v); logs := [] |}.
Proof.
  intros Hn Hon Hv Hh. unfold on_off_option, apply_switch.
  unfold bind at 1. unfold lift at 1. simpl. rewrite Hn.
  destruct (py_eq n (VStr "on")) eqn:E.
  - unfold bind, lift, add_feature, hvac_modes_append, hvac_modes_mapping_setitem,
      hvac_modes_mapping_set_setitem, modify, gets, dict_setitem. simpl.
    rewrite Hv. simpl. rewrite Hh. reflexivity.
  - simpl in Hon. rewrite Hon.
    unfold bind, lift, add_feature, hvac_modes_append, hvac_modes_mapping_setitem,
      hvac_modes_mapping_set_setitem, modify, gets, dict_setitem. simpl.
    rewrite Hv. simpl. rewrite Hh. reflexivity.
Qed.

Lemma on_off_option_unknown o n h :
  py_getitem o "name" = Ok n ->
  py_eq n (VStr "on") || py_eq n (VStr "off") = false ->
  on_off_option o h
  = {| res := Ok tt; heap := h;
       logs := [(WARNING, "_init_platform_specific: unknown on_off option")] |}.
Proof.
  intros Hn Hon. apply orb_false_iff in Hon as [Hon Hoff].
  unfold on_off_option, bind at 1, lift at 1. simpl. rewrite Hn, Hon, Hoff.
  reflexivity.
Qed.

(** The option loop does to the heap what its on/off options say, in order. *)
Lemma on_off_loop_switches opts sws :
  named_switches opts = Some sws ->
  forall h, res (for_each opts on_off_option h) = Ok tt /\
            heap (for_each opts on_off_option h) = fold_left apply_switch sws h.
Proof.
  revert sws. induction opts as [ | o opts IH ]; intros sws Hs h; simpl in Hs.
  - injection Hs as <-. split; reflexivity.
  - destruct (py_getitem o "name") as [n | ] eqn:Hn; try discriminate.
    destruct (py_eq n (VStr "on") || py_eq n (VStr "off")) eqn:Hon.
    + destruct (py_getitem o "value") as [v | ] eqn:Hv; try discriminate.
      destruct (hashable v) eqn:Hh; try discriminate.
      destruct (named_switches opts) as [sws' | ] eqn:Hs'; try discriminate.
      injection Hs as <-. simpl for_each.
      rewrite (bind_ok _ _ _ tt)
        by (now rewrite (on_off_option_switch o n v h Hn Hon Hv Hh)).
      rewrite (on_off_option_switch o n v h Hn Hon Hv Hh). simpl.
      now apply IH.
    + simpl for_each.
      rewrite (bind_ok _ _ _ tt) by (now rewrite (on_off_option_unknown o n h Hn Hon)).
      rewrite (on_off_option_unknown o n h Hn Hon). simpl.
      now apply IH.
Qed.

Lemma process_cap_on_off cap type opts h :
  py_getitem cap "type" = Ok type ->
  py_eq type (VStr "devices.capabilities.on_off") = true ->
  on_off_options cap = Ok opts ->
  res (process_cap cap h) = res (for_each opts on_off_option h) /\
  heap (process_cap cap h) = heap (for_each opts on_off_option h).
Proof.
  intros Ht Hty Ho. unfold process_cap, on_off_options in *.
  rewrite Ht, lift_ok, bind_ret_l, Hty, Ho, lift_ok, bind_ret_l.
  split; reflexivity.
Qed.

End OnOff.

Lemma named_switches_hashable opts sws :
  named_switches opts = Some sws -> Forall (fun sw => hashable (snd sw) = true) sws.
Proof.
  revert sws. induction opts as [ | o opts IH ]; intros sws Hs; simpl in Hs.
  - injection Hs as <-. constructor.
  - destruct (py_getitem o "name") as [n | ]; try discriminate.
    destruct (py_eq n (VStr "on") || py_eq n (VStr "off")).
    + destruct (py_getitem o "value") as [v | ]; try discriminate.
      destruct (hashable v) eqn:Hh; try discriminate.
      destruct (named_switches opts) as [sws' | ]; try discriminate.
      injection Hs as <-. constructor; [ exact Hh | now apply IH ].
    + now apply IH.
Qed.

Lemma apply_switch_mapping h on v :
  _attr_hvac_modes_mapping (cls (apply_switch h (on, v)))
  = pd_set v (if on then HEAT_COOL else OFF) (_attr_hvac_modes_mapping (cls h)).
Proof. reflexivity. Qed.

Lemma apply_switch_mapping_set h on v :
  _attr_hvac_modes_mapping_set (cls (apply_switch h (on, v)))
  = hm_set (if on then HEAT_COOL else OFF) v (_attr_hvac_modes_mapping_set (cls h)).
Proof. reflexivity. Qed.

(** C3, as amended: for an on_off descriptor whose on/off options are exactly
    one [on -> A] and one [off -> B], in either order, with [A] and [B]
    hashable and [A != B], the parse returns and afterwards the forward map
    sends [A] to HEAT_COOL and [B] to OFF and the reverse map sends HEAT_COOL
    to [A] and OFF to [B]; when both maps were empty before, they hold these
    two entries and nothing else, each the inverse of the other. *)
Theorem on_off_maps_are_inverse
  (R : PyRuntime) (h : Heap) (cap type : pyval) (opts : list pyval) (A B : pyval) :
  py_getitem cap "type" = Ok type ->
  py_eq type (VStr "devices.capabilities.on_off") = true ->
  on_off_options cap = Ok opts ->
  named_switches opts = Some [(true, A); (false, B)]
  \/ named_switches opts = Some [(false, B); (true, A)] ->
  py_eq A B = false ->
  let o := process_cap cap h in
  let fwd := _attr_hvac_modes_mapping (cls (heap o)) in
  let rev := _attr_hvac_modes_mapping_set (cls (heap o)) in
  res o = Ok tt /\
  pd_find A fwd = Some HEAT_COOL /\ pd_find B fwd = Some OFF /\
  hm_find HEAT_COOL rev = Some A /\ hm_find OFF rev = Some B /\
  (_attr_hvac_modes_mapping (cls h) = [] ->
   _attr_hvac_modes_mapping_set (cls h) = [] ->
   (fwd = [(A, HEAT_COOL); (B, OFF)] /\ rev = [(HEAT_COOL, A); (OFF, B)])
   \/ (fwd = [(B, OFF); (A, HEAT_COOL)] /\ rev = [(OFF, B); (HEAT_COOL, A)])).
Proof.
  intros Ht Hty Ho Hs Hne. cbv zeta.
  destruct (process_cap_on_off cap type opts h Ht Hty Ho) as [Hr Hh].
  rewrite Hr, Hh. clear Hr Hh.
  assert (HA : hashable A = true /\ hashable B = true).
  { destruct Hs as [Hs | Hs]; apply named_switches_hashable in Hs;
      inversion Hs as [ | ? ? H1 H2 ]; subst; inversion H2; subst; simpl in *; now split. }
  destruct HA as [HA HB].
  assert (Hne' : py_eq B A = false) by (now rewrite py_eq_sym_hashable).
  destruct Hs as [Hs | Hs];
    destruct (on_off_loop_switches opts _ Hs h) as [Hr Hh]; rewrite Hr, Hh; cbn [fold_left];
    rewrite !apply_switch_mapping, !apply_switch_mapping_set.
  - split; [ reflexivity | ].
    split; [ rewrite pd_find_set_other by assumption; apply pd_find_set_same | ].
    split; [ apply pd_find_set_same | ].
    split; [ rewrite hm_find_set_other by discriminate; apply hm_find_set_same | ].
    split; [ apply hm_find_set_same | ].
    intros -> ->. left. simpl. rewrite Hne. now split.
  - split; [ reflexivity | ].
    split; [ apply pd_find_set_same | ].
    split; [ rewrite pd_find_set_other by assumption; apply pd_find_set_same | ].
    split; [ apply hm_find_set_same | ].
    split; [ rewrite hm_find_set_other by discriminate; apply hm_find_set_same | ].
    intros -> ->. right. simpl. rewrite Hne'. now split.
Qed.

Lemma on_off_maps_are_inverse_witness :
  let o := @process_cap sample_runtime power_switch_cap
             (fresh (device [power_switch_cap])) in
  let fwd := _attr_hvac_modes_mapping (cls (heap o)) in
  let rev := _attr_hvac_modes_mapping_set (cls (heap o)) in
  res o = Ok tt /\
  pd_find (VInt 1) fwd = Some HEAT_COOL /\ pd_find (VInt 0) fwd = Some OFF /\
  hm_find HEAT_COOL rev = Some (VInt 1) /\ hm_find OFF rev = Some (VInt 0) /\
  (_attr_hvac_modes_mapping (cls (fresh (device [power_switch_cap]))) = [] ->
   _attr_hvac_modes_mapping_set (cls (fresh (device [power_switch_cap]))) = [] ->
   (fwd = [(VInt 1, HEAT_COOL); (VInt 0, OFF)] /\ rev = [(HEAT_COOL, VInt 1); (OFF, VInt 0)])
   \/ (fwd = [(VInt 0, OFF); (VInt 1, HEAT_COOL)]
       /\ rev = [(OFF, VInt 0); (HEAT_COOL, VInt 1)])).
Proof.
  apply (on_off_maps_are_inverse sample_runtime (fresh (device [power_switch_cap]))
           power_switch_cap (VStr "devices.capabilities.on_off")
           [name_value "on" (VInt 1); name_value "off" (VInt 0)] (VInt 1) (VInt 0)).
  - reflexivity.
  - reflexivity.
  - reflexivity.
  - left. reflexivity.
  - reflexivity.
Defined.

(** C3, as stated, fails: with [on -> 1] and [off -> 1] the forward map sends
    1 to OFF, and with a second [on] option of another value the reverse map
    sends HEAT_COOL to that one, not to 1. *)
Lemma on_off_maps_not_inverse :
  ~ (exists R : PyRuntime,
       pd_find (VInt 1)
         (_attr_hvac_modes_mapping
            (cls (@first_run R
                    (device [on_off_cap [name_value "on" (VInt 1);
                                         name_value "off" (VInt 1)]]))))
       = Some HEAT_COOL)
  /\
  ~ (exists R : PyRuntime,
       hm_find HEAT_COOL
         (_attr_hvac_modes_mapping_set
            (cls (@first_run R
                    (device [on_off_cap [name_value "on" (VInt 1);
                                         name_value "off" (VInt 0);
                                         name_value "on" (VInt 2)]]))))
       = Some (VInt 1)).
Proof.
  split; intros [R H]; vm_compute in H; discriminate.
Qed.

(** ** A small program logic for the parser *)

Lemma hoare_ret {A} (P : Heap -> Prop) (a : A) : hoare P (ret a) (fun _ => P).
Proof. intros h HP a' _. exact HP. Qed.

Lemma hoare_bind {A B} (P : Heap -> Prop) (Q : A -> Heap -> Prop) (S : B -> Heap -> Prop)
  (m : M A) (k : A -> M B) :
  hoare P m Q -> (forall a, hoare (Q a) (k a) S) -> hoare P (bind m k) S.
Proof.
  intros Hm Hk h HP b Hb. unfold bind in *.
  destruct (res (m h)) as [a | e] eqn:E; simpl in *; [ | discriminate ].
  exact (Hk a _ (Hm h HP a E) b Hb).
Qed.

Lemma hoare_conseq {A} (P P' : Heap -> Prop) (Q Q' : A -> Heap -> Prop) (m : M A) :
  hoare P' m Q' -> (forall h, P h -> P' h) -> (forall a h, Q' a h -> Q a h) ->
  hoare P m Q.
Proof. intros Hm HP HQ h Hh a Ha. apply HQ. now apply (Hm h (HP h Hh)). Qed.

(** Evaluations, reads and log records leave the heap as it is. *)
Lemma hoare_lift {A} (P : Heap -> Prop) (r : result A) : hoare P (lift r) (fun _ => P).
Proof. intros h HP a _. exact HP. Qed.

Lemma hoare_gets {A} (P : Heap -> Prop) (f : Heap -> A) :
  hoare P (gets f) (fun a h => P h /\ a = f h).
Proof. intros h HP a [= <-]. now split. Qed.

Lemma hoare_log (P : Heap -> Prop) l msg : hoare P (log l msg) (fun _ => P).
Proof. intros h HP a _. exact HP. Qed.

Lemma hoare_modify (P Q : Heap -> Prop) (f : Heap -> Heap) :
  (forall h, P h -> Q (f h)) -> hoare P (modify f) (fun _ => Q).
Proof. intros H h HP a _. now apply H. Qed.

Lemma hoare_if {A} (P : Heap -> Prop) (Q : A -> Heap -> Prop) (b : bool) (m m' : M A) :
  hoare P m Q -> hoare P m' Q -> hoare P (if b then m else m') Q.
Proof. now destruct b. Qed.

(** A loop keeps what each of its turns keeps. *)
Lemma hoare_for_each {X} (I : Heap -> Prop) (l : list X) (body : X -> M unit) :
  (forall x, hoare I (body x) (fun _ => I)) -> hoare I (for_each l body) (fun _ => I).
Proof.
  intros Hb. induction l as [ | x l IH ]; simpl.
  - apply hoare_ret.
  - eapply hoare_bind; [ apply Hb | intros ?; exact IH ].
Qed.

(** A step that only evaluates, then continues. *)
Lemma hoare_bind_lift {A B} (P : Heap -> Prop) (S : B -> Heap -> Prop)
  (r : result A) (k : A -> M B) :
  (forall a, r = Ok a -> hoare P (k a) S) -> hoare P (bind (lift r) k) S.
Proof.
  intros Hk h HP b Hb. unfold bind, lift in *. simpl in *.
  destruct r as [a | e]; simpl in *; [ | discriminate ].
  exact (Hk a eq_refl h HP b Hb).
Qed.

(** ** C4: the preset names and the payload keys *)

Lemma same_names_nil : same_names [] [].
Proof. split; intros x []. Qed.

Lemma pd_keys_set {V} (n : pyval) (p : V) (d : pydict V) :
  (exists k, In k (pd_keys d) /\ py_eq k n = true /\ pd_keys (pd_set n p d) = pd_keys d)
  \/ pd_keys (pd_set n p d) = pd_keys d ++ [n].
Proof.
  induction d as [ | [k v] d IH ]; simpl.
  - now right.
  - destruct (py_eq k n) eqn:E; simpl.
    + left. exists k. repeat split; trivial. now left.
    + destruct IH as [(k' & Hin & Hk & Heq) | Heq].
      * left. exists k'. repeat split; trivial; [ now right | now rewrite Heq ].
      * right. now rewrite Heq.
Qed.

(** Registering a name: appended to the list, assigned in the dict. *)
Lemma same_names_register {V} (n : pyval) (p : V) (l : list pyval) (d : pydict V) :
  hashable n = true ->
  same_names l (pd_keys d) -> same_names (l ++ [n]) (pd_keys (pd_set n p d)).
Proof.
  intros Hn [H1 H2].
  destruct (pd_keys_set n p d) as [(k & Hin & Hk & Heq) | Heq]; rewrite Heq; split.
  - intros x Hx. apply in_app_or in Hx as [Hx | [<- | []]].
    + now apply H1.
    + exists k. split; trivial.
      rewrite py_eq_sym_hashable; trivial. now apply (py_eq_hashable_l k n).
  - intros k' Hk'. destruct (H2 k' Hk') as (x & Hx & E).
    exists x. split; trivial. apply in_or_app. now left.
  - intros x Hx. apply in_app_or in Hx as [Hx | [<- | []]].
    + destruct (H1 x Hx) as (k & Hk & E). exists k. split; trivial.
      apply in_or_app. now left.
    + exists n. split; [ apply in_or_app; right; now left | apply py_eq_refl ].
  - intros k Hk. apply in_app_or in Hk as [Hk | [<- | []]].
    + destruct (H2 k Hk) as (x & Hx & E). exists x. split; trivial.
      apply in_or_app. now left.
    + exists n. split; [ apply in_or_app; right; now left | apply py_eq_refl ].
Qed.

Section Presets.
Context {R : PyRuntime}.

(** The three statements that register a preset: when they return, the names
    and the payload keys agree again. *)
Lemma register_preset_agree name value payload :
  hoare names_agree
    (preset_modes_append name ;;
     preset_modes_mapping_setitem name value ;;
     preset_modes_mapping_set_setitem name payload)
    (fun _ => names_agree).
Proof.
  intros h HI a Ha. unfold names_agree in *.
  destruct h as [c [cfg sf mx mn st tu opm opmm opms]].
  unfold bind, preset_modes_append, preset_modes_mapping_setitem,
    preset_modes_mapping_set_setitem, modify, gets, lift, dict_setitem,
    preset_modes, preset_modes_mapping, preset_modes_mapping_set in *.
  simpl in *. destruct (hashable name) eqn:Hn; simpl in *; [ | discriminate ].
  destruct opm, opmm, opms; simpl in *; now apply same_names_register.
Qed.

Lemma add_feature_agree flag : hoare names_agree (add_feature flag) (fun _ => names_agree).
Proof. apply hoare_modify. intros h H. exact H. Qed.

Lemma on_off_option_agree o : hoare names_agree (on_off_option o) (fun _ => names_agree).
Proof.
  intros h HI a Ha. unfold names_agree in *.
  unfold on_off_option, bind, add_feature, hvac_modes_append, hvac_modes_mapping_setitem,
    hvac_modes_mapping_set_setitem, modify, gets, lift, log, dict_setitem in *.
  simpl in *.
  destruct (py_getitem o "name") as [n | ]; simpl in *; [ | discriminate ].
  destruct (py_eq n (VStr "on")); simpl in *.
  - destruct (py_getitem o "value") as [v | ]; simpl in *; [ | discriminate ].
    destruct (hashable v); simpl in *; [ exact HI | discriminate ].
  - destruct (py_eq n (VStr "off")); simpl in *; [ | exact HI ].
    destruct (py_getitem o "value") as [v | ]; simpl in *; [ | discriminate ].
    destruct (hashable v); simpl in *; [ exact HI | discriminate ].
Qed.

Lemma temperature_field_agree f :
  hoare names_agree (temperature_field f) (fun _ => names_agree).
Proof.
  unfold temperature_field. apply hoare_bind_lift. intros n _.
  repeat apply hoare_if.
  - apply hoare_bind_lift. intros v _.
    eapply (hoare_bind names_agree (fun _ => names_agree)); [ apply hoare_modify; intros h H; exact H | intros ? ].
    apply hoare_bind_lift. intros v' _.
    eapply (hoare_bind names_agree (fun _ => names_agree)); [ apply hoare_modify; intros h H; exact H | intros ? ].
    apply hoare_bind_lift. intros v'' _.
    apply hoare_modify; intros h H; exact H.
  - apply hoare_bind_lift. intros u _. apply hoare_modify; intros h H; exact H.
  - apply hoare_ret.
  - apply hoare_ret.
Qed.

Lemma gear_level_agree name value level :
  hoare names_agree (gear_level name value level) (fun _ => names_agree).
Proof.
  unfold gear_level. apply hoare_bind_lift. intros ln _.
  apply hoare_bind_lift. intros lv _. apply register_preset_agree.
Qed.

Lemma gear_sub_agree name value sub :
  hoare names_agree (gear_sub name value sub) (fun _ => names_agree).
Proof.
  unfold gear_sub. apply hoare_bind_lift. intros sn _. apply hoare_if.
  - apply hoare_ret.
  - apply hoare_bind_lift. intros levels _.
    apply hoare_for_each. intros l. apply gear_level_agree.
Qed.

Lemma work_option_step_agree mode_field o :
  hoare names_agree (work_option_step mode_field o) (fun _ => names_agree).
Proof.
  unfold work_option_step. apply hoare_bind_lift. intros name _.
  apply hoare_bind_lift. intros value _. apply hoare_if.
  - apply hoare_bind_lift. intros subs _.
    apply hoare_for_each. intros s. apply gear_sub_agree.
  - apply hoare_bind_lift. intros dv _. apply register_preset_agree.
Qed.

(** After the three assignments the containers the entity resolves to are
    empty, whether the first one bound a list or not. *)
Lemma reset_presets_empties h :
  preset_modes (heap (reset_presets h)) = []
  /\ preset_modes_mapping (heap (reset_presets h)) = []
  /\ preset_modes_mapping_set (heap (reset_presets h)) = [].
Proof.
  destruct h as [c [cfg sf mx mn st tu opm opmm opms]].
  unfold reset_presets, modify, preset_modes, preset_modes_mapping,
    preset_modes_mapping_set.
  cbn [heap self cls with_self set_own_presets own_preset_modes
       own_preset_modes_mapping own_preset_modes_mapping_set].
  destruct opm as [[ | x l] | ]; cbn; [ now repeat split .. | ].
  destruct (_attr_preset_modes c) eqn:E; cbn; rewrite ?E; now repeat split.
Qed.

Lemma work_mode_cap_agree cap :
  hoare (fun _ => True) (work_mode_cap cap) (fun _ => names_agree).
Proof.
  unfold work_mode_cap.
  eapply (hoare_bind (fun _ => True) (fun _ _ => True));
    [ apply hoare_modify; trivial | intros ? ].
  eapply (hoare_bind (fun _ => True) (fun _ => names_agree)).
  { apply hoare_modify. intros h _.
    change (names_agree (heap (reset_presets h))). unfold names_agree.
    destruct (reset_presets_empties h) as (-> & _ & ->). apply same_names_nil. }
  intros ?. apply hoare_bind_lift. intros wf _. apply hoare_bind_lift. intros mf _.
  eapply (hoare_bind _ (fun _ => names_agree)); [ | intros ?; apply hoare_log ].
  apply hoare_if; [ apply hoare_log | ].
  destruct wf as [wf | ]; [ | apply hoare_ret ].
  destruct mf as [mf | ]; [ | apply hoare_ret ].
  apply hoare_bind_lift. intros opts _.
  apply hoare_for_each. intros o. apply work_option_step_agree.
Qed.

Lemma process_cap_agree cap : hoare names_agree (process_cap cap) (fun _ => names_agree).
Proof.
  unfold process_cap. apply hoare_bind_lift. intros type _. apply hoare_if.
  - apply hoare_bind_lift. intros opts _.
    apply hoare_for_each. intros o. apply on_off_option_agree.
  - eapply hoare_bind with (Q := fun _ => names_agree).
    { apply hoare_if; [ | apply hoare_ret ].
      apply hoare_bind_lift. intros i _. apply hoare_ret. }
    intros is_temp. apply hoare_if.
    + eapply (hoare_bind names_agree (fun _ => names_agree)); [ apply add_feature_agree | intros ? ].
      apply hoare_bind_lift. intros fields _.
      apply hoare_for_each. intros f. apply temperature_field_agree.
    + apply hoare_if.
      * eapply hoare_conseq;
          [ apply work_mode_cap_agree | intros; exact I | intros ? ? H; exact H ].
      * eapply hoare_bind with (Q := fun _ => names_agree).
        { apply hoare_if; [ | apply hoare_ret ].
          apply hoare_bind_lift. intros i _. apply hoare_ret. }
        intros is_sensor. apply hoare_if; [ apply hoare_ret | apply hoare_log ].
Qed.

Lemma init_agree : hoare names_agree _init_platform_specific (fun _ => names_agree).
Proof.
  unfold _init_platform_specific.
  eapply (hoare_bind names_agree (fun _ => names_agree)); [ apply hoare_log | intros ? ].
  eapply hoare_bind with (Q := fun _ => names_agree).
  { eapply hoare_bind; [ apply hoare_gets | intros cfg ].
    eapply hoare_conseq;
      [ apply (hoare_lift names_agree) | intros h [H _]; exact H | intros ? ? H; exact H ]. }
  intros caps. eapply (hoare_bind names_agree (fun _ => names_agree)); [ apply hoare_log | intros ? ].
  apply hoare_bind_lift. intros l _.
  apply hoare_for_each. intros c. apply process_cap_agree.
Qed.

End Presets.

(** C4 fails on the code: the preset list of the class is empty when the
    first entity is built, so the assignment [self._attr_preset_modes = []]
    binds nothing and the first entity's names are appended to the list of
    the class.  An entity built later from a device without a work_mode
    capability resolves [preset_modes] to that list and the payload dict to
    the empty dict of the class: it has five preset names and no payload, and
    a command for one of the names is dropped. *)
Theorem later_entity_has_names_without_payloads (R : PyRuntime) :
  let first := first_run (device [work_mode_sample]) in
  let later := _init_platform_specific (later_entity first (device [power_switch_cap])) in
  res later = Ok tt
  /\ preset_modes (heap later)
     = [VStr "gearMode-Low"; VStr "gearMode-Medium"; VStr "gearMode-High";
        VStr "Fan"; VStr "Auto"]
  /\ preset_modes_mapping_set (heap later) = []
  /\ ~ names_agree (heap later)
  /\ res (async_set_preset_mode (VStr "Fan") (heap later)) = Ok None.
Proof.
  cbv zeta.
  assert (Hl : preset_modes
                 (heap (_init_platform_specific
                          (later_entity (first_run (device [work_mode_sample]))
                             (device [power_switch_cap]))))
               = [VStr "gearMode-Low"; VStr "gearMode-Medium"; VStr "gearMode-High";
                  VStr "Fan"; VStr "Auto"])
    by (vm_compute; reflexivity).
  assert (Hd : preset_modes_mapping_set
                 (heap (_init_platform_specific
                          (later_entity (first_run (device [work_mode_sample]))
                             (device [power_switch_cap]))))
               = [])
    by (vm_compute; reflexivity).
  split; [ vm_compute; reflexivity | ].
  split; [ exact Hl | ].
  split; [ exact Hd | ].
  split; [ | vm_compute; reflexivity ].
  unfold names_agree. rewrite Hl, Hd. intros [H _].
  destruct (H (VStr "gearMode-Low") (or_introl eq_refl)) as (k & [] & _).
Qed.

(** ** C5 and C10: the preset read back from a snapshot *)

Lemma scan_presets_find items w m :
  scan_presets items w m
  = option_map fst
      (find (fun e => py_eq (workMode (snd e)) w && py_eq (modeValue (snd e)) m) items).
Proof.
  induction items as [ | [n p] items IH ]; simpl; trivial.
  destruct (py_eq (workMode p) w && py_eq (modeValue p) m); trivial.
Qed.

Lemma find_app_hit {A} (f : A -> bool) l1 x l2 :
  f x = true ->
  find f (l1 ++ x :: l2) = match find f l1 with Some y => Some y | None => Some x end.
Proof.
  intros Hx. induction l1 as [ | y l1 IH ]; simpl.
  - now rewrite Hx.
  - destruct (f y); trivial.
Qed.

Lemma payload_matches_refl p n : payload_matches p (n, p) = true.
Proof. unfold payload_matches. simpl. now rewrite !py_eq_refl. Qed.

(** C5: read against a snapshot whose workMode entry is the payload stored
    for [p], [preset_mode] returns [p], unless a preset registered before [p]
    has the same pair, in which case it returns the first such preset. *)
Theorem preset_mode_round_trip
  (h : Heap) (s : Snapshot) (before after : pydict Payload) (p : pyval) (payload : Payload) :
  preset_modes_mapping_set h = before ++ (p, payload) :: after ->
  reading s work_mode_key = payload_to_py payload ->
  preset_mode h s = Ok (first_name (payload_matches payload) before p).
Proof.
  intros Hd Hs. unfold preset_mode, reading in *. simpl in Hs. rewrite Hs.
  unfold payload_to_py, first_name. simpl.
  rewrite scan_presets_find, Hd.
  rewrite (find_app_hit _ before (p, payload) after) by apply payload_matches_refl.
  fold (payload_matches payload).
  now destruct (find (payload_matches payload) before).
Qed.

Lemma preset_mode_round_trip_witness :
  preset_mode sample_heap snapshot_auto
  = Ok (first_name
          (payload_matches {| workMode := VInt 3; modeValue := VInt 5 |})
          [(VStr "gearMode-Low", {| workMode := VInt 1; modeValue := VInt 1 |});
           (VStr "gearMode-Medium", {| workMode := VInt 1; modeValue := VInt 2 |});
           (VStr "gearMode-High", {| workMode := VInt 1; modeValue := VInt 3 |});
           (VStr "Fan", {| workMode := VInt 9; modeValue := VInt 0 |})]
          (VStr "Auto")).
Proof.
  apply (preset_mode_round_trip sample_heap snapshot_auto _ [] (VStr "Auto")
           {| workMode := VInt 3; modeValue := VInt 5 |}).
  - vm_compute. reflexivity.
  - vm_compute. reflexivity.
Defined.

(** C10: a workMode reading that has [workMode] but no [modeValue] is read
    with [modeValue] 0: the result is the first registered preset whose
    payload is that work mode with mode value 0, [None] if there is none. *)
Theorem preset_mode_defaults_mode_value
  (h : Heap) (s : Snapshot) (d : list (string * pyval)) (w : pyval) :
  reading s work_mode_key = VDict d ->
  dict_find "workMode" d = Some w ->
  dict_find "modeValue" d = None ->
  preset_mode h s
  = Ok (first_name (payload_matches {| workMode := w; modeValue := VInt 0 |})
          (preset_modes_mapping_set h) VNone).
Proof.
  intros Hs Hw Hm. unfold preset_mode, reading in *. simpl in Hs. rewrite Hs.
  assert (Ht : py_truthy (VDict d) = true) by (destruct d; [ discriminate | reflexivity ]).
  rewrite Ht. simpl. rewrite Hw, Hm. simpl.
  rewrite scan_presets_find. unfold first_name.
  fold (payload_matches {| workMode := w; modeValue := VInt 0 |}).
  now destruct (find _ (preset_modes_mapping_set h)).
Qed.

Lemma preset_mode_defaults_mode_value_witness :
  preset_mode sample_heap snapshot_fan
  = Ok (first_name (payload_matches {| workMode := VInt 9; modeValue := VInt 0 |})
          (preset_modes_mapping_set sample_heap) VNone).
Proof.
  apply (preset_mode_defaults_mode_value sample_heap snapshot_fan
           [("workMode", VInt 9)] (VInt 9)); reflexivity.
Defined.

Example preset_mode_fan : preset_mode sample_heap snapshot_fan = Ok (VStr "Fan").
Proof. vm_compute. reflexivity. Qed.

(** ** C6: the target temperature *)

Section Target.
Context {R : PyRuntime}.

Lemma target_temperature_run s h p :
  preset_mode h s = Ok p ->
  res (target_temperature s h)
  = match
      (if py_truthy p then
         match dict_get p (preset_modes_mapping_set h) with
         | Ok (Some payload) =>
             if negb (is_None (modeValue payload))
                && negb (py_eq (modeValue payload) (VInt 0))
             then rmap Some (py_float (modeValue payload))
             else Ok None
         | Ok None => Ok None
         | Raise e => Raise e
         end
       else Ok None)
    with
    | Ok (Some f) => Ok (Some f)
    | Ok None =>
        if is_None (reading s slider_key) then Ok None
        else
          match py_get (reading s slider_key) "targetTemperature" VNone with
          | Ok t => if is_None t then Ok None else rmap Some (py_float t)
          | Raise e => Raise e
          end
    | Raise e => Raise e
    end.
Proof.
  intros Hp. unfold target_temperature, reading, slider_key.
  unfold bind, gets, lift, log, ret. simpl. rewrite Hp. simpl.
  destruct (py_truthy p); simpl.
  - destruct (dict_get p (preset_modes_mapping_set h)) as [[payload | ] | e]; simpl; trivial.
    + destruct (negb (is_None (modeValue payload))
                && negb (py_eq (modeValue payload) (VInt 0))); simpl.
      * destruct (py_float (modeValue payload)); reflexivity.
      * destruct (is_None _); simpl; trivial.
        destruct (py_get _ "targetTemperature" VNone) as [t | ]; simpl; trivial.
        destruct (is_None t); simpl; trivial. destruct (py_float t); reflexivity.
    + destruct (is_None _); simpl; trivial.
      destruct (py_get _ "targetTemperature" VNone) as [t | ]; simpl; trivial.
      destruct (is_None t); simpl; trivial. destruct (py_float t); reflexivity.
  - destruct (is_None _); simpl; trivial.
    destruct (py_get _ "targetTemperature" VNone) as [t | ]; simpl; trivial.
    destruct (is_None t); simpl; trivial. destruct (py_float t); reflexivity.
Qed.

End Target.

(** C6: with [p] the preset the snapshot resolves to, (1) when [p] is active
    and its stored modeValue is neither [None] nor 0, the target temperature
    is that value as a float, whatever the slider reading holds; when no
    preset is active or the stored modeValue is 0, (2) it is the slider
    reading's targetTemperature as a float, and (3) [None] when there is no
    slider reading or it has no targetTemperature. *)
Theorem target_temperature_precedence (R : PyRuntime) (h : Heap) (s : Snapshot) (p : pyval) :
  preset_mode h s = Ok p ->
  let inactive :=
    p = VNone \/ exists payload, dict_get p (preset_modes_mapping_set h) = Ok (Some payload)
                                 /\ py_eq (modeValue payload) (VInt 0) = true in
  (forall payload,
      py_truthy p = true ->
      dict_get p (preset_modes_mapping_set h) = Ok (Some payload) ->
      is_None (modeValue payload) = false ->
      py_eq (modeValue payload) (VInt 0) = false ->
      res (target_temperature s h) = rmap Some (py_float (modeValue payload))) /\
  (inactive ->
   forall d t,
     reading s slider_key = VDict d -> dict_find "targetTemperature" d = Some t ->
     is_None t = false ->
     res (target_temperature s h) = rmap Some (py_float t)) /\
  (inactive ->
   reading s slider_key = VNone
   \/ (exists d, reading s slider_key = VDict d
                 /\ (dict_find "targetTemperature" d = None
                     \/ dict_find "targetTemperature" d = Some VNone)) ->
   res (target_temperature s h) = Ok None).
Proof.
  intros Hp. cbv zeta. rewrite (target_temperature_run s h p Hp).
  assert (Hin : p = VNone \/ (exists payload,
                   dict_get p (preset_modes_mapping_set h) = Ok (Some payload)
                   /\ py_eq (modeValue payload) (VInt 0) = true) ->
                (if py_truthy p then
                   match dict_get p (preset_modes_mapping_set h) with
                   | Ok (Some payload) =>
                       if negb (is_None (modeValue payload))
                          && negb (py_eq (modeValue payload) (VInt 0))
                       then rmap Some (py_float (modeValue payload))
                       else Ok None
                   | Ok None => Ok None
                   | Raise e => Raise e
                   end
                 else Ok None) = Ok None).
  { intros [-> | (payload & Hd & Hz)]; [ reflexivity | ].
    rewrite Hd, Hz, andb_false_r. now destruct (py_truthy p). }
  split; [ | split ].
  - intros payload Ht Hd Hn Hz. rewrite Ht, Hd, Hn, Hz. simpl.
    destruct (py_float (modeValue payload)); reflexivity.
  - intros Hi d t Hs Ht Hn. rewrite (Hin Hi), Hs. simpl. rewrite Ht, Hn. reflexivity.
  - intros Hi Hs. rewrite (Hin Hi).
    destruct Hs as [-> | (d & -> & [Hd | Hd])]; simpl; trivial; now rewrite Hd.
Qed.

Lemma target_temperature_precedence_witness :
  res (@target_temperature sample_runtime snapshot_auto sample_heap) = Ok (Some 5%float)
  /\ res (@target_temperature sample_runtime snapshot_fan sample_heap) = Ok (Some 20%float)
  /\ res (@target_temperature sample_runtime [] sample_heap) = Ok None.
Proof.
  split; [ | split ].
  - apply (proj1 (target_temperature_precedence sample_runtime sample_heap snapshot_auto
                    (VStr "Auto") eq_refl)
             {| workMode := VInt 3; modeValue := VInt 5 |}); reflexivity.
  - apply (proj1 (proj2 (target_temperature_precedence sample_runtime sample_heap
                           snapshot_fan (VStr "Fan") eq_refl))
             (or_intror (ex_intro _ {| workMode := VInt 9; modeValue := VInt 0 |}
                           (conj eq_refl eq_refl)))
             [("targetTemperature", VInt 20); ("unit", VStr "Celsius")] (VInt 20));
      reflexivity.
  - apply (proj2 (proj2 (target_temperature_precedence sample_runtime sample_heap []
                           VNone eq_refl))
             (or_introl eq_refl)).
    left. reflexivity.
Defined.

(** ** C7: the current temperature *)

(** C7: with the sensor reading 98.6, [current_temperature] is 37.0 when the
    unit resolves to Celsius and 98.6, unconverted, when it resolves to
    Fahrenheit. *)
Theorem current_temperature_converts (R : PyRuntime) (s : Snapshot) :
  reading s sensor_key = reading_98_6 ->
  (temperature_unit s = Ok CELSIUS -> current_temperature s = Ok (Some 37%float)) /\
  (temperature_unit s = Ok FAHRENHEIT -> current_temperature s = Ok (Some 98.6%float)).
Proof.
  intros Hs. unfold current_temperature, reading in *. simpl in Hs. rewrite Hs.
  split; intros ->; reflexivity.
Qed.

Lemma current_temperature_converts_witness :
  @current_temperature sample_runtime (snapshot_sensor "Celsius") = Ok (Some 37%float)
  /\ @current_temperature sample_runtime (snapshot_sensor "Fahrenheit")
     = Ok (Some 98.6%float).
Proof.
  split.
  - apply (proj1 (current_temperature_converts sample_runtime (snapshot_sensor "Celsius")
                    eq_refl)).
    reflexivity.
  - apply (proj2 (current_temperature_converts sample_runtime (snapshot_sensor "Fahrenheit")
                    eq_refl)).
    reflexivity.
Defined.

(** ** C8: the read properties on missing data *)

(** C8, as amended: [hvac_mode] returns for every hashable powerSwitch
    reading, with STATE_UNKNOWN for a value the forward map does not have;
    [preset_mode] returns [None] on a falsy workMode reading and returns on
    every dict; [temperature_unit] is CELSIUS when both temperature readings
    are missing, the member named by the reading's unit string upper-cased,
    and [KeyError] when that is no member name; [target_temperature] is
    [None] when the workMode reading is falsy and the slider reading is
    missing; [current_temperature] is [None] on a [None] or [""] sensor
    reading. *)
Theorem read_properties_on_missing_data (R : PyRuntime) (h : Heap) (s : Snapshot) :
  (hashable (reading s power_key) = true ->
   res (hvac_mode s h)
   = Ok (match pd_find (reading s power_key) (_attr_hvac_modes_mapping (cls h)) with
         | Some m => Mode m
         | None => STATE_UNKNOWN
         end)) /\
  (py_truthy (reading s work_mode_key) = false -> preset_mode h s = Ok VNone) /\
  (forall d, reading s work_mode_key = VDict d -> is_ok (preset_mode h s) = true) /\
  (reading s target_key = VNone -> reading s slider_key = VNone ->
   temperature_unit s = Ok CELSIUS) /\
  (forall d u, reading s target_key = VDict d -> dict_find "unit" d = Some (VStr u) ->
               temperature_unit s = UnitOfTemperature_getitem (str_upper u)) /\
  (py_truthy (reading s work_mode_key) = false -> reading s slider_key = VNone ->
   res (target_temperature s h) = Ok None) /\
  (reading s sensor_key = VNone \/ reading s sensor_key = VStr "" ->
   current_temperature s = Ok None).
Proof.
  unfold reading, power_key, work_mode_key, target_key, slider_key, sensor_key. simpl.
  split; [ | split; [ | split; [ | split; [ | split; [ | split ] ] ] ] ].
  - intros Hh. unfold hvac_mode, bind, gets, lift, dict_get. simpl. rewrite Hh. simpl.
    now destruct (pd_find _ _).
  - intros Ht. unfold preset_mode. now rewrite Ht.
  - intros d Hd. unfold preset_mode. rewrite Hd. simpl.
    destruct d; simpl; trivial. now destruct (scan_presets _ _ _).
  - intros Ht Hs. unfold temperature_unit. now rewrite Ht, Hs.
  - intros d u Hd Hu. unfold temperature_unit, unit_of_reading. rewrite Hd. simpl.
    rewrite Hu. reflexivity.
  - intros Ht Hs.
    assert (Hp : preset_mode h s = Ok VNone) by (unfold preset_mode; now rewrite Ht).
    rewrite (target_temperature_run s h VNone Hp). unfold reading, slider_key. simpl.
    now rewrite Hs.
  - intros Hs. unfold current_temperature. now destruct Hs as [-> | ->].
Qed.

Lemma read_properties_on_missing_data_witness :
  res (hvac_mode [] sample_heap) = Ok STATE_UNKNOWN
  /\ preset_mode sample_heap [] = Ok VNone
  /\ @temperature_unit sample_runtime [] = Ok CELSIUS
  /\ @temperature_unit sample_runtime (snapshot_sensor "Fahrenheit") = Ok FAHRENHEIT
  /\ res (@target_temperature sample_runtime [] sample_heap) = Ok None
  /\ @current_temperature sample_runtime [] = Ok None.
Proof.
  pose proof (read_properties_on_missing_data sample_runtime sample_heap [])
    as (H1 & H2 & _ & H4 & _ & H6 & H7).
  pose proof (read_properties_on_missing_data sample_runtime sample_heap
                (snapshot_sensor "Fahrenheit")) as (_ & _ & _ & _ & H5 & _ & _).
  split; [ exact (H1 eq_refl) | ].
  split; [ exact (H2 eq_refl) | ].
  split; [ exact (H4 eq_refl eq_refl) | ].
  split; [ exact (H5 _ "Fahrenheit" eq_refl eq_refl) | ].
  split; [ exact (H6 eq_refl eq_refl) | ].
  exact (H7 (or_introl eq_refl)).
Defined.

(** C8, as stated, fails: a unit string that names no member of the unit
    enumeration makes [temperature_unit] raise [KeyError].  The string is
    ASCII, so the runtime plays no part. *)
Lemma temperature_unit_raises_on_unit_c :
  @temperature_unit sample_runtime snapshot_unit_c = Raise KeyError.
Proof. reflexivity. Qed.

(** ** C9: the temperature command *)

(** C9 fails on the code: without a targetTemperature reading,
    [async_set_temperature] calls [.get] on [None] and raises
    [AttributeError]; no command is built. *)
Theorem set_temperature_without_target_reading
  (s : Snapshot) (kwargs : list (string * pyval)) :
  reading s target_key = VNone ->
  async_set_temperature s kwargs = Raise AttributeError.
Proof.
  unfold reading, target_key, async_set_temperature. simpl. now intros ->.
Qed.

Lemma set_temperature_without_target_reading_witness :
  async_set_temperature snapshot_slider_only [("temperature", VInt 21)]
  = Raise AttributeError.
Proof.
  apply (set_temperature_without_target_reading snapshot_slider_only
           [("temperature", VInt 21)]).
  reflexivity.
Defined.

(** * Further properties of the parser *)

(** ** What holds of every run, returned or raised *)

Lemma ends_ret {A} (P : Heap -> Prop) (a : A) : ends_in P (ret a) P.
Proof. intros h H. exact H. Qed.

Lemma ends_lift {A} (P : Heap -> Prop) (r : result A) : ends_in P (lift r) P.
Proof. intros h H. exact H. Qed.

Lemma ends_gets {A} (P : Heap -> Prop) (f : Heap -> A) : ends_in P (gets f) P.
Proof. intros h H. exact H. Qed.

Lemma ends_log (P : Heap -> Prop) l msg : ends_in P (log l msg) P.
Proof. intros h H. exact H. Qed.

Lemma ends_modify (P Q : Heap -> Prop) (f : Heap -> Heap) :
  (forall h, P h -> Q (f h)) -> ends_in P (modify f) Q.
Proof. intros H h HP. now apply H. Qed.

Lemma ends_bind {A B} (P Q S : Heap -> Prop) (m : M A) (k : A -> M B) :
  ends_in P m Q -> (forall a, ends_in Q (k a) S) -> (forall h, Q h -> S h) ->
  ends_in P (bind m k) S.
Proof.
  intros Hm Hk HQ h HP. unfold bind. specialize (Hm h HP).
  destruct (res (m h)) as [a | e]; simpl; [ now apply Hk | now apply HQ ].
Qed.

(** An invariant of every step is an invariant of the sequence. *)
Lemma ends_seq {A B} (I : Heap -> Prop) (m : M A) (k : A -> M B) :
  ends_in I m I -> (forall a, ends_in I (k a) I) -> ends_in I (bind m k) I.
Proof. intros Hm Hk. now apply (ends_bind I I I). Qed.

Lemma ends_if {A} (P Q : Heap -> Prop) (b : bool) (m m' : M A) :
  ends_in P m Q -> ends_in P m' Q -> ends_in P (if b then m else m') Q.
Proof. now destruct b. Qed.

Lemma ends_for_each {X} (I : Heap -> Prop) (l : list X) (body : X -> M unit) :
  (forall x, ends_in I (body x) I) -> ends_in I (for_each l body) I.
Proof.
  intros Hb. induction l as [ | x l IH ]; simpl.
  - apply ends_ret.
  - apply ends_seq; [ apply Hb | intros ?; exact IH ].
Qed.

Lemma ends_weaken {A} (P P' Q Q' : Heap -> Prop) (m : M A) :
  ends_in P' m Q' -> (forall h, P h -> P' h) -> (forall h, Q' h -> Q h) -> ends_in P m Q.
Proof. intros Hm HP HQ h H. apply HQ, Hm, HP, H. Qed.

(** Proves that a run built from the steps below keeps an invariant, given how
    to prove it of a [modify]. *)
Ltac ends_steps tac :=
  repeat first
    [ apply ends_ret | apply ends_lift | apply ends_gets | apply ends_log
    | apply ends_if
    | match goal with
      | |- ends_in _ (match ?x with Some _ => _ | None => _ end) _ => destruct x
      end
    | apply ends_seq; [ | intros ? ]
    | apply ends_for_each; intros ?
    | apply ends_modify; tac ].

Lemma flags_within_refl f : flags_within f f.
Proof. apply Z.land_diag. Qed.

Lemma flags_within_lor f g flag : flags_within f g -> flags_within f (Z.lor g flag).
Proof.
  unfold flags_within. intros H. apply Z.bits_inj'. intros n Hn.
  rewrite Z.land_spec, Z.lor_spec.
  assert (Hb : Z.testbit f n = Z.testbit f n && Z.testbit g n)
    by (rewrite <- Z.land_spec; now rewrite H).
  destruct (Z.testbit f n), (Z.testbit g n), (Z.testbit flag n); simpl in *; congruence.
Qed.

Lemma only_added_refl h : only_added h h.
Proof.
  split; [ apply flags_within_refl | split; [ | reflexivity ] ].
  exists []. split; [ now rewrite app_nil_r | constructor ].
Qed.

Section EveryRun.
Context {R : PyRuntime}.

Ltac only_added_modify h0 :=
  let h := fresh "h" in
  let Hf := fresh "Hf" in
  let t := fresh "t" in
  let Ht := fresh "Ht" in
  let HF := fresh "HF" in
  let Hc := fresh "Hc" in
  intros h (Hf & (t & Ht & HF) & Hc);
  unfold only_added;
  repeat match goal with
    | |- context [match ?x with Some _ => _ | None => _ end] => destruct x eqn:?
    end;
  simpl;
  (split; [ first [ exact Hf | now apply flags_within_lor ] | split; [ | exact Hc ] ]);
  first
    [ exists t; now split
    | exists (t ++ [HEAT_COOL]); split;
      [ rewrite Ht; now rewrite app_assoc
      | apply Forall_app; split; [ exact HF | constructor; [ now left | constructor ] ] ]
    | exists (t ++ [OFF]); split;
      [ rewrite Ht; now rewrite app_assoc
      | apply Forall_app; split; [ exact HF | constructor; [ now right | constructor ] ] ] ].

Lemma process_cap_only_adds h0 cap :
  ends_in (only_added h0) (process_cap cap) (only_added h0).
Proof.
  unfold process_cap, work_mode_cap, work_option_step, gear_sub, gear_level,
    temperature_field, on_off_option, add_feature, hvac_modes_append,
    hvac_modes_mapping_setitem, hvac_modes_mapping_set_setitem, preset_modes_append,
    preset_modes_mapping_setitem, preset_modes_mapping_set_setitem, reset_presets.
  ends_steps ltac:(only_added_modify h0).
Qed.

Lemma init_only_adds_from h0 :
  ends_in (only_added h0) _init_platform_specific (only_added h0).
Proof.
  unfold _init_platform_specific.
  ends_steps ltac:(only_added_modify h0).
Qed.

End EveryRun.

(** X1: whatever the capability list, and whether the initialisation returns
    or raises, it only adds feature flags, only appends HEAT_COOL and OFF to
    the class's hvac list, and leaves the device configuration as it was. *)
Theorem init_only_adds (R : PyRuntime) (h : Heap) :
  only_added h (heap (_init_platform_specific h)).
Proof. apply init_only_adds_from, only_added_refl. Qed.

(** ** The class's preset containers *)

Section ClassPresets.
Context {R : PyRuntime}.
Variable c : pydict pyval * pydict Payload.
Variable l : list pyval.
Variable G : Prop.

Ltac presets_modify :=
  let h := fresh "h" in
  intros h;
  destruct h as [[hm hmm hms pm pmm pms] [cfg sf mx mn st tu opm opmm opms]];
  unfold class_presets_kept, class_presets_owned, owns_preset_maps, class_preset_maps,
    class_list_shielded, preset_modes;
  cbn; intros;
  repeat match goal with
    | |- context [match ?x with Some _ => _ | None => _ end] => destruct x eqn:?
    | |- context [match ?x with [] => _ | _ :: _ => _ end] => destruct x eqn:?
    end;
  cbn in *; intuition (try congruence; try discriminate).

Lemma presets_owned_kept h :
  class_presets_owned c l G h -> class_presets_kept c l G h.
Proof.
  unfold class_presets_kept, class_presets_owned, class_list_shielded. intros (_ & Hc & Hl).
  split; [ exact Hc | ]. intros g. destruct (Hl g) as [H1 H2]. split; [ exact H1 | now right ].
Qed.

Lemma work_options_keep_class mode_field opts :
  ends_in (class_presets_owned c l G)
    (for_each opts (work_option_step mode_field))
    (class_presets_owned c l G).
Proof.
  unfold work_option_step, gear_sub, gear_level, preset_modes_append,
    preset_modes_mapping_setitem, preset_modes_mapping_set_setitem.
  ends_steps presets_modify.
Qed.

Lemma work_mode_cap_keeps_class cap :
  ends_in (class_presets_kept c l G) (work_mode_cap cap) (class_presets_kept c l G).
Proof.
  unfold work_mode_cap.
  apply ends_seq; [ apply ends_modify; presets_modify | intros ? ].
  apply (ends_bind _ (class_presets_owned c l G));
    [ apply ends_modify; presets_modify | intros ? | apply presets_owned_kept ].
  apply (ends_weaken _ (class_presets_owned c l G) _ (class_presets_owned c l G));
    [ | trivial | apply presets_owned_kept ].
  apply ends_seq; [ apply ends_lift | intros wf ].
  apply ends_seq; [ apply ends_lift | intros mf ].
  apply ends_seq; [ | intros ?; apply ends_log ].
  apply ends_if; [ apply ends_log | ].
  destruct wf as [wf | ]; [ | apply ends_ret ].
  destruct mf as [mf | ]; [ | apply ends_ret ].
  apply ends_seq; [ apply ends_lift | intros opts ].
  apply work_options_keep_class.
Qed.

Lemma process_cap_keeps_class cap :
  ends_in (class_presets_kept c l G) (process_cap cap) (class_presets_kept c l G).
Proof.
  unfold process_cap.
  apply ends_seq; [ apply ends_lift | intros type ].
  apply ends_if.
  - unfold on_off_option, add_feature, hvac_modes_append, hvac_modes_mapping_setitem,
      hvac_modes_mapping_set_setitem.
    ends_steps presets_modify.
  - apply ends_seq; [ ends_steps presets_modify | intros is_temperature ].
    apply ends_if.
    + unfold temperature_field, add_feature. ends_steps presets_modify.
    + apply ends_if; [ apply work_mode_cap_keeps_class | ].
      ends_steps presets_modify.
Qed.

Lemma init_keeps_class :
  ends_in (class_presets_kept c l G) _init_platform_specific (class_presets_kept c l G).
Proof.
  unfold _init_platform_specific.
  apply ends_seq; [ apply ends_log | intros ? ].
  apply ends_seq; [ ends_steps presets_modify | intros caps ].
  apply ends_seq; [ apply ends_log | intros ? ].
  apply ends_seq; [ apply ends_lift | intros l' ].
  apply ends_for_each. intros cap. apply process_cap_keeps_class.
Qed.

End ClassPresets.

(** X2: what the initialisation does to the preset containers of the class,
    whether it returns or raises.  It never touches the two dicts.  It leaves
    the list as it was when the list is not empty or the entity has bound a
    list of its own: presets reach the class only through its empty list. *)
Theorem class_presets_reached_only_while_empty (R : PyRuntime) (h : Heap) :
  let h' := heap (_init_platform_specific h) in
  class_preset_maps h' = class_preset_maps h
  /\ (class_list_shielded h ->
      _attr_preset_modes (cls h') = _attr_preset_modes (cls h)).
Proof.
  cbv zeta.
  destruct (init_keeps_class (class_preset_maps h) (_attr_preset_modes (cls h))
              (class_list_shielded h) h) as [Hc Hl].
  - split; [ reflexivity | ]. intros g. now split.
  - split; [ exact Hc | ]. intros g. now destruct (Hl g).
Qed.

Lemma class_presets_reached_only_while_empty_witness :
  let h := later_entity (@first_run sample_runtime (device [work_mode_sample]))
             (device [work_mode_sample]) in
  _attr_preset_modes (cls (heap (@_init_platform_specific sample_runtime h)))
  = _attr_preset_modes (cls h).
Proof.
  apply (proj2 (class_presets_reached_only_while_empty sample_runtime
                  (later_entity (@first_run sample_runtime (device [work_mode_sample]))
                     (device [work_mode_sample])))).
  left. vm_compute. discriminate.
Defined.

(** ** What holds when the initialisation returns *)

Lemma hoare_seq {A B} (I : Heap -> Prop) (m : M A) (k : A -> M B) :
  hoare I m (fun _ => I) -> (forall a, hoare I (k a) (fun _ => I)) ->
  hoare I (bind m k) (fun _ => I).
Proof. intros Hm Hk. now apply (hoare_bind I (fun _ => I)). Qed.

Lemma hoare_gets_inv {A} (I : Heap -> Prop) (f : Heap -> A) :
  hoare I (gets f) (fun _ => I).
Proof. intros h H a _. exact H. Qed.

(** Proves that a run keeps an invariant that none of its [modify] steps
    changes, [lem] covering the steps that do change it. *)
Ltac hoare_steps lem :=
  repeat first
    [ lem
    | apply hoare_ret | apply hoare_log | apply hoare_lift | apply hoare_gets_inv
    | apply hoare_if
    | match goal with
      | |- hoare _ (match ?x with Some _ => _ | None => _ end) _ => destruct x
      end
    | apply hoare_seq; [ | intros ? ]
    | apply hoare_for_each; intros ?
    | apply hoare_modify; let h := fresh "h" in let H := fresh "H" in
                          intros h H;
                          repeat match goal with
                            | |- context [match ?x with Some _ => _ | None => _ end] =>
                                destruct x
                            end;
                          exact H ].

Lemma hm_find_set_iff m m' v d :
  hm_find m (hm_set m' v d) <> None <-> m = m' \/ hm_find m d <> None.
Proof.
  destruct (HVACMode_eqb m' m) eqn:E.
  - apply HVACMode_eqb_eq in E as ->. rewrite hm_find_set_same.
    split; [ now left | discriminate ].
  - assert (Hne : m' <> m) by (intros ->; now rewrite HVACMode_eqb_refl in E).
    rewrite (hm_find_set_other m' m v d Hne).
    split; [ now right | intros [-> | H]; [ now elim Hne | exact H ] ].
Qed.

Section Returned.
Context {R : PyRuntime}.

Lemma on_off_option_keeps_reverse_keys o :
  hoare modes_are_reverse_keys (on_off_option o) (fun _ => modes_are_reverse_keys).
Proof.
  intros h HI a Ha. unfold modes_are_reverse_keys in *.
  unfold on_off_option, bind, add_feature, hvac_modes_append, hvac_modes_mapping_setitem,
    hvac_modes_mapping_set_setitem, modify, gets, lift, log, dict_setitem in *.
  simpl in *.
  destruct (py_getitem o "name") as [n | ]; simpl in *; [ | discriminate ].
  destruct (py_eq n (VStr "on")); simpl in *.
  - destruct (py_getitem o "value") as [v | ]; simpl in *; [ | discriminate ].
    destruct (hashable v); simpl in *; [ | discriminate ].
    intros m. rewrite in_app_iff, hm_find_set_iff, HI. simpl. intuition congruence.
  - destruct (py_eq n (VStr "off")); simpl in *; [ | exact HI ].
    destruct (py_getitem o "value") as [v | ]; simpl in *; [ | discriminate ].
    destruct (hashable v); simpl in *; [ | discriminate ].
    intros m. rewrite in_app_iff, hm_find_set_iff, HI. simpl. intuition congruence.
Qed.

Lemma init_keeps_reverse_keys :
  hoare modes_are_reverse_keys _init_platform_specific (fun _ => modes_are_reverse_keys).
Proof.
  unfold _init_platform_specific.
  hoare_steps ltac:(apply on_off_option_keeps_reverse_keys).
Qed.

End Returned.

(** X3: when the initialisation returns, every mode of the hvac list can be
    commanded, with the vendor value the reverse map holds for it, and every
    other mode makes [async_set_hvac_mode] raise [KeyError]; given that the
    modes of the list were the keys of the reverse map before. *)
Theorem advertised_modes_can_be_commanded (R : PyRuntime) (h : Heap) (m : HVACMode) :
  modes_are_reverse_keys h ->
  res (_init_platform_specific h) = Ok tt ->
  let h' := heap (_init_platform_specific h) in
  (In m (_attr_hvac_modes (cls h')) ->
   exists value,
     hm_find m (_attr_hvac_modes_mapping_set (cls h')) = Some value
     /\ async_set_hvac_mode h' m
        = Ok {| cmd_type := "devices.capabilities.on_off";
                cmd_instance := "powerSwitch";
                cmd_value := value |})
  /\ (~ In m (_attr_hvac_modes (cls h')) -> async_set_hvac_mode h' m = Raise KeyError).
Proof.
  intros HI Hr. cbv zeta. pose proof (init_keeps_reverse_keys h HI tt Hr m) as Hm.
  unfold async_set_hvac_mode.
  destruct (hm_find m _) as [value | ].
  - split; [ intros _; now exists value | ].
    intros Hn. elim Hn. apply Hm. discriminate.
  - split; [ | reflexivity ]. intros Hin. apply Hm in Hin. now elim Hin.
Qed.

Lemma advertised_modes_can_be_commanded_witness :
  let h' := heap (@_init_platform_specific sample_runtime
                    (fresh (device [power_switch_cap]))) in
  (In OFF (_attr_hvac_modes (cls h')) ->
   exists value,
     hm_find OFF (_attr_hvac_modes_mapping_set (cls h')) = Some value
     /\ async_set_hvac_mode h' OFF
        = Ok {| cmd_type := "devices.capabilities.on_off";
                cmd_instance := "powerSwitch";
                cmd_value := value |})
  /\ (~ In OFF (_attr_hvac_modes (cls h')) -> async_set_hvac_mode h' OFF = Raise KeyError).
Proof.
  apply (advertised_modes_can_be_commanded sample_runtime
           (fresh (device [power_switch_cap])) OFF).
  - intros m. simpl. split; [ intros [] | intros H; now elim H ].
  - vm_compute. reflexivity.
Defined.

(** ** Presets: commands for the advertised names *)

Lemma py_eq_hashable_r a b : hashable a = true -> py_eq a b = true -> hashable b = true.
Proof. destruct a, b; simpl; trivial; discriminate. Qed.

Lemma pd_find_of_key {V} (k name : pyval) (d : pydict V) :
  In k (pd_keys d) -> py_eq k name = true -> exists v, pd_find name d = Some v.
Proof.
  induction d as [ | [k' v'] d IH ]; simpl; [ intros [] | ].
  intros [-> | Hin] Hk.
  - rewrite Hk. now exists v'.
  - destruct (py_eq k' name); [ now exists v' | now apply IH ].
Qed.

Lemma pd_find_in {V} (name : pyval) (v : V) (d : pydict V) :
  pd_find name d = Some v -> exists k, In (k, v) d /\ py_eq k name = true.
Proof.
  induction d as [ | [k' v'] d IH ]; simpl; [ discriminate | ].
  destruct (py_eq k' name) eqn:E.
  - intros [= <-]. exists k'. split; [ now left | exact E ].
  - intros H. destruct (IH H) as (k & Hin & Hk). exists k. split; [ now right | exact Hk ].
Qed.

Section WorkMode.
Context {R : PyRuntime}.

Lemma process_cap_work_mode cap h :
  py_getitem cap "type" = Ok (VStr "devices.capabilities.work_mode") ->
  process_cap cap h = work_mode_cap cap h.
Proof.
  intros Ht. unfold process_cap. rewrite Ht, lift_ok, bind_ret_l.
  change (py_eq (VStr "devices.capabilities.work_mode")
            (VStr "devices.capabilities.on_off")) with false.
  change (py_eq (VStr "devices.capabilities.work_mode")
            (VStr "devices.capabilities.temperature_setting")) with false.
  cbv iota. rewrite bind_ret_l. reflexivity.
Qed.

End WorkMode.

Section PresetNames.
Context {R : PyRuntime}.

Lemma register_preset_hashable name value payload :
  hoare names_hashable
    (preset_modes_append name ;;
     preset_modes_mapping_setitem name value ;;
     preset_modes_mapping_set_setitem name payload)
    (fun _ => names_hashable).
Proof.
  intros h HI a Ha. unfold names_hashable in *.
  destruct h as [c [cfg sf mx mn st tu opm opmm opms]].
  unfold bind, preset_modes_append, preset_modes_mapping_setitem,
    preset_modes_mapping_set_setitem, modify, gets, lift, dict_setitem,
    preset_modes, preset_modes_mapping, preset_modes_mapping_set in *.
  simpl in *. destruct (hashable name) eqn:Hn; simpl in *; [ | discriminate ].
  destruct opm, opmm, opms; simpl in *;
    (apply Forall_app; split; [ exact HI | now constructor ]).
Qed.

Lemma reset_presets_hashable P : hoare P reset_presets (fun _ => names_hashable).
Proof.
  apply hoare_modify. intros h _.
  change (names_hashable (heap (reset_presets h))). unfold names_hashable.
  destruct (reset_presets_empties h) as (-> & _). constructor.
Qed.

Lemma process_cap_keeps_names_hashable cap :
  hoare names_hashable (process_cap cap) (fun _ => names_hashable).
Proof.
  unfold process_cap.
  hoare_steps ltac:(first [ apply register_preset_hashable | apply reset_presets_hashable ]).
Qed.

(** A work_mode capability leaves names that agree with the payload keys and
    are hashable, whatever it found. *)
Lemma work_mode_cap_settles cap :
  hoare (fun _ => True) (work_mode_cap cap)
    (fun _ h => names_agree h /\ names_hashable h).
Proof.
  assert (Hh : hoare (fun _ => True) (work_mode_cap cap) (fun _ => names_hashable)).
  { unfold work_mode_cap.
    eapply (hoare_bind (fun _ => True) (fun _ _ => True));
      [ apply hoare_modify; trivial | intros ? ].
    eapply (hoare_bind (fun _ => True) (fun _ => names_hashable));
      [ apply reset_presets_hashable | intros ? ].
    hoare_steps ltac:(apply register_preset_hashable). }
  intros h _ a Ha.
  split; [ exact (work_mode_cap_agree cap h I a Ha) | exact (Hh h I a Ha) ].
Qed.

(** The loop over a capability list that has a work_mode capability. *)
Lemma loop_with_work_mode_settles before cap after :
  py_getitem cap "type" = Ok (VStr "devices.capabilities.work_mode") ->
  hoare (fun _ => True) (for_each (before ++ cap :: after) process_cap)
    (fun _ h => names_agree h /\ names_hashable h).
Proof.
  intros Ht. induction before as [ | d before IH ]; simpl.
  - eapply (hoare_bind (fun _ => True) (fun _ h => names_agree h /\ names_hashable h)).
    + intros h _ u Hu. rewrite (process_cap_work_mode cap h Ht) in *.
      exact (work_mode_cap_settles cap h I u Hu).
    + intros ?. apply hoare_for_each. intros c h [H1 H2] u Hu.
      split; [ exact (process_cap_agree c h H1 u Hu)
             | exact (process_cap_keeps_names_hashable c h H2 u Hu) ].
  - eapply (hoare_bind (fun _ => True) (fun _ _ => True)); [ | intros ?; exact IH ].
    intros h _ u _. exact I.
Qed.

End PresetNames.

(** X4: for a device whose capability list has a work_mode capability, when
    the initialisation returns, the names of [preset_modes] are the keys of
    the payload dict and every one of them can be commanded:
    [async_set_preset_mode] hands over the work_mode command that carries the
    payload stored for the name.  This holds from every start, the class as
    earlier entities left it included. *)
Theorem advertised_presets_can_be_commanded
  (R : PyRuntime) (h : Heap) (cfg : list (string * pyval))
  (before after : list pyval) (cap name : pyval) :
  _device_cfg (self h) = VDict cfg ->
  dict_find "capabilities" cfg = Some (VList (before ++ cap :: after)) ->
  py_getitem cap "type" = Ok (VStr "devices.capabilities.work_mode") ->
  res (_init_platform_specific h) = Ok tt ->
  let h' := heap (_init_platform_specific h) in
  names_agree h'
  /\ (In name (preset_modes h') ->
      exists payload,
        pd_find name (preset_modes_mapping_set h') = Some payload
        /\ res (async_set_preset_mode name h')
           = Ok (Some {| cmd_type := "devices.capabilities.work_mode";
                         cmd_instance := "workMode";
                         cmd_value := payload_to_py payload |})).
Proof.
  intros Hcfg Hcaps Ht Hr. cbv zeta.
  destruct (init_runs_the_loop h cfg _ Hcfg Hcaps) as (Hres & Hheap & _).
  rewrite Hres in Hr. rewrite Hheap.
  destruct (loop_with_work_mode_settles before cap after Ht h I tt Hr) as [[H1 H1'] H2].
  split; [ now split | ]. intros Hin.
  destruct (H1 name Hin) as (k & Hk & E).
  assert (Hn : hashable name = true).
  { unfold names_hashable in H2. rewrite Forall_forall in H2. now apply H2. }
  assert (E' : py_eq k name = true).
  { rewrite py_eq_sym_hashable; trivial. now apply (py_eq_hashable_r name k). }
  destruct (pd_find_of_key k name _ Hk E') as [payload Hp].
  exists payload. split; [ exact Hp | ].
  unfold async_set_preset_mode, bind, gets, lift, ret, dict_get. cbn [res heap logs].
  rewrite Hn. cbn [res heap logs]. rewrite Hp. reflexivity.
Qed.

Lemma advertised_presets_can_be_commanded_witness :
  let h := later_entity (@first_run sample_runtime (device [work_mode_sample]))
             (device [power_switch_cap; work_mode_sample]) in
  let h' := heap (@_init_platform_specific sample_runtime h) in
  names_agree h'
  /\ (In (VStr "gearMode-Low") (preset_modes h') ->
      exists payload,
        pd_find (VStr "gearMode-Low") (preset_modes_mapping_set h') = Some payload
        /\ res (async_set_preset_mode (VStr "gearMode-Low") h')
           = Ok (Some {| cmd_type := "devices.capabilities.work_mode";
                         cmd_instance := "workMode";
                         cmd_value := payload_to_py payload |})).
Proof.
  apply (advertised_presets_can_be_commanded sample_runtime
           (later_entity (@first_run sample_runtime (device [work_mode_sample]))
              (device [power_switch_cap; work_mode_sample]))
           [("device", VStr "AA:BB"); ("type", VStr "devices.types.heater");
            ("capabilities", VList [power_switch_cap; work_mode_sample])]
           [power_switch_cap] [] work_mode_sample (VStr "gearMode-Low"));
    reflexivity.
Defined.

(** X5: a preset command reads back.  When [async_set_preset_mode] builds a
    command and the device then reports the command's value as its workMode,
    [preset_mode] returns a registered preset whose payload is the commanded
    pair. *)
Theorem preset_command_reads_back
  (h : Heap) (s : Snapshot) (name : pyval) (cmd : Command) :
  res (async_set_preset_mode name h) = Ok (Some cmd) ->
  reading s work_mode_key = cmd_value cmd ->
  exists payload q stored,
    cmd_value cmd = payload_to_py payload
    /\ preset_mode h s = Ok q
    /\ In (q, stored) (preset_modes_mapping_set h)
    /\ payload_matches payload (q, stored) = true.
Proof.
  unfold async_set_preset_mode, bind, gets, lift, ret, log, dict_get. cbn [res heap logs].
  destruct (hashable name); cbn [res heap logs]; [ | discriminate ].
  destruct (pd_find name (preset_modes_mapping_set h)) as [payload | ] eqn:Hp;
    cbn [res heap logs]; [ | discriminate ].
  intros [= <-]. cbn [cmd_value]. intros Hs. exists payload.
  destruct (pd_find_in name payload _ Hp) as (k & Hin & _).
  unfold preset_mode, reading in *. simpl in Hs. rewrite Hs.
  unfold payload_to_py. simpl. rewrite scan_presets_find.
  fold (payload_matches payload).
  destruct (find (payload_matches payload) (preset_modes_mapping_set h))
    as [[q stored] | ] eqn:Hf; simpl.
  - exists q, stored. apply find_some in Hf as [Hq Hm]. now repeat split.
  - pose proof (find_none _ _ Hf (k, payload) Hin) as Hm.
    now rewrite payload_matches_refl in Hm.
Qed.

Lemma preset_command_reads_back_witness :
  exists payload q stored,
    VDict [("workMode", VInt 3); ("modeValue", VInt 5)] = payload_to_py payload
    /\ preset_mode sample_heap snapshot_auto = Ok q
    /\ In (q, stored) (preset_modes_mapping_set sample_heap)
    /\ payload_matches payload (q, stored) = true.
Proof.
  apply (preset_command_reads_back sample_heap snapshot_auto (VStr "Auto")
           {| cmd_type := "devices.capabilities.work_mode";
              cmd_instance := "workMode";
              cmd_value := VDict [("workMode", VInt 3); ("modeValue", VInt 5)] |});
    vm_compute; reflexivity.
Defined.

(** ** The temperature unit *)

(** X6: [temperature_unit] looks at the sliderTemperature reading only when
    there is no targetTemperature reading: a targetTemperature reading
    without a unit gives CELSIUS whatever the slider reading says, and
    without a targetTemperature reading the slider's unit string decides. *)
Theorem temperature_unit_prefers_target
  (R : PyRuntime) (s : Snapshot) (d : list (string * pyval)) :
  (reading s target_key = VDict d -> dict_find "unit" d = None ->
   temperature_unit s = Ok CELSIUS)
  /\ (forall u, reading s target_key = VNone -> reading s slider_key = VDict d ->
                dict_find "unit" d = Some (VStr u) ->
                temperature_unit s = UnitOfTemperature_getitem (str_upper u)).
Proof.
  unfold reading, target_key, slider_key, temperature_unit, unit_of_reading. simpl.
  split.
  - intros -> Hu. simpl. now rewrite Hu.
  - intros u -> -> Hu. simpl. now rewrite Hu.
Qed.

Lemma temperature_unit_prefers_target_witness :
  @temperature_unit sample_runtime
    [("devices.capabilities.temperature_setting", "targetTemperature",
      VDict [("targetTemperature", VInt 20)]);
     ("devices.capabilities.temperature_setting", "sliderTemperature",
      VDict [("targetTemperature", VInt 68); ("unit", VStr "Fahrenheit")])]
  = Ok CELSIUS.
Proof.
  apply (proj1 (temperature_unit_prefers_target sample_runtime
                  [("devices.capabilities.temperature_setting", "targetTemperature",
                    VDict [("targetTemperature", VInt 20)]);
                   ("devices.capabilities.temperature_setting", "sliderTemperature",
                    VDict [("targetTemperature", VInt 68); ("unit", VStr "Fahrenheit")])]
                  [("targetTemperature", VInt 20)]));
    reflexivity.
Defined.

(** X7: the unit a temperature command carries is the unit the entity reports:
    when [async_set_temperature] builds a command whose unit is the string
    [u], [temperature_unit] on the same snapshot is the member named by [u]
    upper-cased (and raises when there is none). *)
Theorem command_unit_is_reported_unit
  (R : PyRuntime) (s : Snapshot) (kwargs : list (string * pyval)) (cmd : Command) (u : string) :
  async_set_temperature s kwargs = Ok cmd ->
  command_unit cmd = Some u ->
  temperature_unit s = UnitOfTemperature_getitem (str_upper u).
Proof.
  unfold async_set_temperature, temperature_unit, unit_of_reading, command_unit.
  destruct (GoveeAPI_GetCachedStateValue s _ "targetTemperature") as [ | | | | | | d ];
    simpl; try discriminate.
  destruct (dict_find "temperature" kwargs) as [t | ]; simpl; [ | discriminate ].
  intros [= <-]. simpl.
  destruct (dict_find "unit" d) as [[ | | | | u' | | ] | ]; simpl; try discriminate.
  - now intros [= ->].
  - now intros [= <-].
Qed.

Lemma command_unit_is_reported_unit_witness :
  @temperature_unit sample_runtime (snapshot_sensor "Fahrenheit")
  = UnitOfTemperature_getitem (@str_upper sample_runtime "Fahrenheit").
Proof.
  apply (command_unit_is_reported_unit sample_runtime (snapshot_sensor "Fahrenheit")
           [("temperature", VInt 70)]
           {| cmd_type := "devices.capabilities.temperature_setting";
              cmd_instance := "targetTemperature";
              cmd_value := VDict [("temperature", VInt 70); ("unit", VStr "Fahrenheit")] |}
           "Fahrenheit"); reflexivity.
Defined.

(** ** The work_mode capability *)

Lemma work_mode_fields_then {A} cap fields (k : list pyval -> result A) :
  work_mode_fields cap = Ok fields ->
  (let* p := py_getitem cap "parameters" in
   let* f := py_getitem p "fields" in
   let* fs := py_iter f in
   k fs) = k fields.
Proof.
  unfold work_mode_fields.
  destruct (py_getitem cap "parameters") as [p | ]; simpl; [ | discriminate ].
  destruct (py_getitem p "fields") as [f | ]; simpl; [ | discriminate ].
  now intros ->.
Qed.

(** X8: a work_mode capability in which the workMode or the modeValue field is
    missing still resets the presets: the parse returns, the entity's three
    preset containers are empty afterwards, whatever an earlier work_mode
    capability had registered, and the warning is logged. *)
Theorem work_mode_without_fields_clears_presets
  (R : PyRuntime) (h : Heap) (cap : pyval) (fields : list pyval)
  (work_field mode_field : option pyval) :
  py_getitem cap "type" = Ok (VStr "devices.capabilities.work_mode") ->
  work_mode_fields cap = Ok fields ->
  find_field fields "workMode" = Ok work_field ->
  find_field fields "modeValue" = Ok mode_field ->
  opt_falsy work_field || opt_falsy mode_field = true ->
  let o := process_cap cap h in
  res o = Ok tt
  /\ preset_modes (heap o) = [] /\ preset_modes_mapping (heap o) = []
  /\ preset_modes_mapping_set (heap o) = []
  /\ logs o = [(WARNING, "missing workMode or modeValue fields");
               (DEBUG, "Available preset modes")].
Proof.
  intros Ht Hf Hw Hm Hfalsy. cbv zeta. rewrite (process_cap_work_mode cap h Ht).
  unfold work_mode_cap.
  rewrite !(work_mode_fields_then cap fields _ Hf), Hw, Hm.
  destruct (reset_presets_empties (heap (add_feature PRESET_MODE h))) as (H1 & H2 & H3).
  unfold bind, add_feature, reset_presets, modify, lift, log in *. cbn [res heap logs] in *.
  rewrite Hfalsy. cbn [res heap logs].
  split; [ reflexivity | ].
  split; [ exact H1 | split; [ exact H2 | split; [ exact H3 | reflexivity ] ] ].
Qed.

Lemma work_mode_without_fields_clears_presets_witness :
  let cap := VDict [("type", VStr "devices.capabilities.work_mode");
                    ("parameters", VDict [("fields", VList [
                       VDict [("fieldName", VStr "workMode");
                              ("options", VList [name_value "Fan" (VInt 9)])]])])] in
  let o := @process_cap sample_runtime cap sample_heap in
  res o = Ok tt
  /\ preset_modes (heap o) = [] /\ preset_modes_mapping (heap o) = []
  /\ preset_modes_mapping_set (heap o) = []
  /\ logs o = [(WARNING, "missing workMode or modeValue fields");
               (DEBUG, "Available preset modes")].
Proof.
  apply (work_mode_without_fields_clears_presets sample_runtime sample_heap _
           [VDict [("fieldName", VStr "workMode");
                   ("options", VList [name_value "Fan" (VInt 9)])]]
           (Some (VDict [("fieldName", VStr "workMode");
                         ("options", VList [name_value "Fan" (VInt 9)])]))
           None); reflexivity.
Defined.

Lemma pd_find_set_other_str {V} (a b : string) (v : V) (d : pydict V) :
  a <> b -> pd_find (VStr b) (pd_set (VStr a) v d) = pd_find (VStr b) d.
Proof.
  intros Hne. apply pd_find_set_other; trivial. simpl. now apply String.eqb_neq.
Qed.

Section Registering.
Context {R : PyRuntime}.

(** The three statements that register a preset, when the name is hashable. *)
Lemma register_preset_run name value payload h :
  hashable name = true ->
  let o := (preset_modes_append name ;;
            preset_modes_mapping_setitem name value ;;
            preset_modes_mapping_set_setitem name payload) h in
  res o = Ok tt /\ logs o = []
  /\ preset_modes (heap o) = preset_modes h ++ [name]
  /\ preset_modes_mapping (heap o) = pd_set name value (preset_modes_mapping h)
  /\ preset_modes_mapping_set (heap o) = pd_set name payload (preset_modes_mapping_set h).
Proof.
  intros Hn. cbv zeta.
  destruct h as [c [cfg sf mx mn st tu opm opmm opms]].
  unfold bind, preset_modes_append, preset_modes_mapping_setitem,
    preset_modes_mapping_set_setitem, modify, gets, lift, dict_setitem,
    preset_modes, preset_modes_mapping, preset_modes_mapping_set.
  simpl. rewrite Hn. simpl.
  destruct opm, opmm, opms; simpl; repeat split.
Qed.

Lemma gear_levels_run name value levels pairs :
  level_pairs levels = Some pairs ->
  forall h,
    let o := for_each levels (gear_level name value) h in
    res o = Ok tt
    /\ preset_modes (heap o)
       = preset_modes h ++ map (fun p => VStr (composite name (fst p))) pairs
    /\ preset_modes_mapping_set (heap o)
       = fold_left (fun d p => pd_set (VStr (composite name (fst p)))
                                 {| workMode := value; modeValue := snd p |} d)
           pairs (preset_modes_mapping_set h).
Proof.
  revert pairs. induction levels as [ | level levels IH ]; intros pairs Hp h; simpl in Hp.
  - injection Hp as <-. cbv zeta. simpl. now rewrite app_nil_r.
  - destruct (py_getitem level "name") as [n | ] eqn:Hn; [ | discriminate ].
    destruct (py_getitem level "value") as [v | ] eqn:Hv; [ | discriminate ].
    destruct (level_pairs levels) as [pairs' | ]; [ | discriminate ].
    injection Hp as <-. cbv zeta. simpl for_each.
    assert (Hstep : gear_level name value level h
                    = (preset_modes_append (VStr (composite name n)) ;;
                       preset_modes_mapping_setitem (VStr (composite name n)) value ;;
                       preset_modes_mapping_set_setitem (VStr (composite name n))
                         {| workMode := value; modeValue := v |}) h).
    { unfold gear_level. now rewrite Hn, lift_ok, bind_ret_l, Hv, lift_ok, bind_ret_l. }
    destruct (register_preset_run (VStr (composite name n)) value
                {| workMode := value; modeValue := v |} h eq_refl)
      as (Hr & _ & Hl & _ & Hd).
    rewrite <- Hstep in Hr, Hl, Hd.
    rewrite (bind_ok _ _ _ tt Hr). cbn [res heap logs].
    destruct (IH pairs' eq_refl (heap (gear_level name value level h))) as (Hr' & Hl' & Hd').
    split; [ exact Hr' | split ].
    + rewrite Hl', Hl. simpl. now rewrite <- app_assoc.
    + rewrite Hd', Hd. reflexivity.
Qed.

Lemma fold_set_other {V} (f : pyval * pyval -> string) (g : pyval * pyval -> V)
  (pairs : list (pyval * pyval)) (k : string) (d : pydict V) :
  ~ In k (map f pairs) ->
  pd_find (VStr k) (fold_left (fun d p => pd_set (VStr (f p)) (g p) d) pairs d)
  = pd_find (VStr k) d.
Proof.
  revert d. induction pairs as [ | p pairs IH ]; intros d Hk; simpl; trivial.
  rewrite IH by (intros H; apply Hk; now right).
  apply pd_find_set_other_str. intros E. apply Hk. now left.
Qed.

Lemma fold_set_find {V} (f : pyval * pyval -> string) (g : pyval * pyval -> V)
  (pairs : list (pyval * pyval)) (p : pyval * pyval) (d : pydict V) :
  NoDup (map f pairs) -> In p pairs ->
  pd_find (VStr (f p)) (fold_left (fun d p => pd_set (VStr (f p)) (g p) d) pairs d)
  = Some (g p).
Proof.
  revert d. induction pairs as [ | q pairs IH ]; intros d Hnd Hin; [ destruct Hin | ].
  simpl. inversion Hnd as [ | ? ? Hq Hnd' ]; subst. destruct Hin as [-> | Hin].
  - rewrite fold_set_other by exact Hq. apply pd_find_set_same.
  - now apply IH.
Qed.

End Registering.

(** X9: the gear hierarchy.  For a modeValue sub-option named gearMode whose
    levels each have a [name] and a [value], the parser appends one preset
    per level, named "<name>-<level name>" in the order of the levels, and,
    the composite names being distinct, stores for each the payload made of
    the work mode's value and the level's value. *)
Theorem gear_levels_become_presets
  (R : PyRuntime) (h : Heap) (name value sub : pyval)
  (levels : list pyval) (pairs : list (pyval * pyval)) :
  py_get sub "name" VNone = Ok (VStr "gearMode") ->
  sub_levels sub = Ok levels ->
  level_pairs levels = Some pairs ->
  let o := gear_sub name value sub h in
  res o = Ok tt
  /\ preset_modes (heap o)
     = preset_modes h ++ map (fun p => VStr (composite name (fst p))) pairs
  /\ (NoDup (map (fun p => composite name (fst p)) pairs) ->
      forall level_name level_value,
        In (level_name, level_value) pairs ->
        pd_find (VStr (composite name level_name)) (preset_modes_mapping_set (heap o))
        = Some {| workMode := value; modeValue := level_value |}).
Proof.
  intros Hn Hl Hp. cbv zeta.
  assert (Hrun : gear_sub name value sub h = for_each levels (gear_level name value) h).
  { unfold gear_sub, sub_levels in *. rewrite Hn, lift_ok, bind_ret_l.
    change (negb (py_eq (VStr "gearMode") (VStr "gearMode"))) with false. cbv iota.
    now rewrite Hl, lift_ok, bind_ret_l. }
  rewrite Hrun. destruct (gear_levels_run name value levels pairs Hp h) as (Hr & Hm & Hd).
  split; [ exact Hr | split; [ exact Hm | ] ].
  intros Hnd level_name level_value Hin. rewrite Hd.
  apply (fold_set_find (fun p => composite name (fst p))
           (fun p => {| workMode := value; modeValue := snd p |})
           pairs (level_name, level_value) _ Hnd Hin).
Qed.

Lemma gear_levels_become_presets_witness :
  let sub := VDict [("name", VStr "gearMode");
                    ("options", VList [name_value "Low" (VInt 1);
                                       name_value "Medium" (VInt 2);
                                       name_value "High" (VInt 3)])] in
  let o := @gear_sub sample_runtime (VStr "gearMode") (VInt 1) sub
             (fresh (device [])) in
  res o = Ok tt
  /\ preset_modes (heap o)
     = [] ++ [VStr "gearMode-Low"; VStr "gearMode-Medium"; VStr "gearMode-High"]
  /\ (NoDup ["gearMode-Low"; "gearMode-Medium"; "gearMode-High"] ->
      forall level_name level_value,
        In (level_name, level_value)
          [(VStr "Low", VInt 1); (VStr "Medium", VInt 2); (VStr "High", VInt 3)] ->
        pd_find (VStr (@composite sample_runtime (VStr "gearMode") level_name))
          (preset_modes_mapping_set (heap o))
        = Some {| workMode := VInt 1; modeValue := level_value |}).
Proof.
  apply (gear_levels_become_presets sample_runtime (fresh (device []))
           (VStr "gearMode") (VInt 1)
           (VDict [("name", VStr "gearMode");
                   ("options", VList [name_value "Low" (VInt 1);
                                      name_value "Medium" (VInt 2);
                                      name_value "High" (VInt 3)])])
           [name_value "Low" (VInt 1); name_value "Medium" (VInt 2);
            name_value "High" (VInt 3)]
           [(VStr "Low", VInt 1); (VStr "Medium", VInt 2); (VStr "High", VInt 3)]);
    reflexivity.
Defined.

(** ** Flat presets *)

Lemma default_level_none_named name opts default_val :
  Forall (other_name name) opts -> default_level opts name default_val = Ok default_val.
Proof.
  induction 1 as [ | f opts (n & Hn & Hne) _ IH ]; simpl; trivial.
  rewrite Hn. simpl. now rewrite Hne.
Qed.

Lemma default_level_last_named name before f after d n default_val :
  Forall (fun g => exists d', g = VDict d') before ->
  f = VDict d -> dict_find "name" d = Some n -> py_eq n name = true ->
  Forall (other_name name) after ->
  default_level (before ++ f :: after) name default_val
  = Ok (match dict_find "defaultValue" d with Some v => v | None => VInt 0 end).
Proof.
  intros Hb -> Hn He Ha. revert default_val.
  induction Hb as [ | g before [d' ->] _ IH ]; intros default_val.
  - simpl. rewrite Hn. simpl. rewrite He. now apply default_level_none_named.
  - change ((VDict d' :: before) ++ VDict d :: after)
      with (VDict d' :: (before ++ VDict d :: after)).
    cbn [default_level py_get rbind].
    destruct (py_eq match dict_find "name" d' with Some x => x | None => VNone end name);
      apply IH.
Qed.

Section Flat.
Context {R : PyRuntime}.

Lemma flat_option_run mode_field o name value opts default_val h :
  py_getitem o "name" = Ok name -> py_getitem o "value" = Ok value ->
  py_eq name (VStr "gearMode") = false ->
  mode_options mode_field = Ok opts ->
  default_level opts name (VInt 0) = Ok default_val ->
  work_option_step mode_field o h
  = (preset_modes_append name ;;
     preset_modes_mapping_setitem name value ;;
     preset_modes_mapping_set_setitem name
       {| workMode := value; modeValue := default_val |}) h.
Proof.
  intros Hn Hv Hg Ho Hd. unfold work_option_step, mode_options in *.
  rewrite Hn, lift_ok, bind_ret_l, Hv, lift_ok, bind_ret_l, Hg.
  assert (E : (let* o0 := py_get mode_field "options" (VList []) in
               let* fs := py_iter o0 in default_level fs name (VInt 0)) = Ok default_val).
  { destruct (py_get mode_field "options" (VList [])) as [o0 | ]; simpl in *;
      [ | discriminate ].
    now rewrite Ho. }
  now rewrite E, lift_ok, bind_ret_l.
Qed.

End Flat.

(** X10: a work mode other than gearMode for which the modeValue field has no
    option of its name is registered with mode value 0: the name is appended
    to the preset list, and the two preset maps hold the work mode's value
    and the payload made of that value and 0 under the name. *)
Theorem flat_preset_defaults_to_zero
  (R : PyRuntime) (h : Heap) (mode_field o name value : pyval) (opts : list pyval) :
  py_getitem o "name" = Ok name -> py_getitem o "value" = Ok value ->
  py_eq name (VStr "gearMode") = false -> hashable name = true ->
  mode_options mode_field = Ok opts ->
  Forall (other_name name) opts ->
  let r := work_option_step mode_field o h in
  res r = Ok tt
  /\ preset_modes (heap r) = preset_modes h ++ [name]
  /\ pd_find name (preset_modes_mapping (heap r)) = Some value
  /\ pd_find name (preset_modes_mapping_set (heap r))
     = Some {| workMode := value; modeValue := VInt 0 |}.
Proof.
  intros Hn Hv Hg Hh Ho Hf. cbv zeta.
  rewrite (flat_option_run mode_field o name value opts (VInt 0) h Hn Hv Hg Ho
             (default_level_none_named name opts (VInt 0) Hf)).
  destruct (register_preset_run name value {| workMode := value; modeValue := VInt 0 |} h Hh)
    as (Hr & _ & Hl & Hm & Hd).
  split; [ exact Hr | split; [ exact Hl | split ] ].
  - rewrite Hm. now apply pd_find_set_same.
  - rewrite Hd. now apply pd_find_set_same.
Qed.

Lemma flat_preset_defaults_to_zero_witness :
  let mode_field :=
    VDict [("fieldName", VStr "modeValue");
           ("options", VList [VDict [("name", VStr "Auto"); ("defaultValue", VInt 5)]])] in
  let r := @work_option_step sample_runtime mode_field (name_value "Fan" (VInt 9))
             (fresh (device [])) in
  res r = Ok tt
  /\ preset_modes (heap r) = preset_modes (fresh (device [])) ++ [VStr "Fan"]
  /\ pd_find (VStr "Fan") (preset_modes_mapping (heap r)) = Some (VInt 9)
  /\ pd_find (VStr "Fan") (preset_modes_mapping_set (heap r))
     = Some {| workMode := VInt 9; modeValue := VInt 0 |}.
Proof.
  apply (flat_preset_defaults_to_zero sample_runtime (fresh (device []))
           (VDict [("fieldName", VStr "modeValue");
                   ("options", VList [VDict [("name", VStr "Auto");
                                             ("defaultValue", VInt 5)]])])
           (name_value "Fan" (VInt 9)) (VStr "Fan") (VInt 9)
           [VDict [("name", VStr "Auto"); ("defaultValue", VInt 5)]]);
    try reflexivity.
  constructor; [ | constructor ].
  exists (VStr "Auto"). split; reflexivity.
Defined.

(** X11: when the modeValue field has options of the work mode's name, the
    last of them decides: the preset is registered with that option's
    defaultValue, 0 when the option has none, whatever the earlier options of
    the name say. *)
Theorem flat_preset_takes_last_default
  (R : PyRuntime) (h : Heap) (mode_field o name value : pyval)
  (before after : list pyval) (f : pyval) (d : list (string * pyval)) (n : pyval) :
  py_getitem o "name" = Ok name -> py_getitem o "value" = Ok value ->
  py_eq name (VStr "gearMode") = false -> hashable name = true ->
  mode_options mode_field = Ok (before ++ f :: after) ->
  Forall (fun g => exists d', g = VDict d') before ->
  f = VDict d -> dict_find "name" d = Some n -> py_eq n name = true ->
  Forall (other_name name) after ->
  let r := work_option_step mode_field o h in
  res r = Ok tt
  /\ pd_find name (preset_modes_mapping_set (heap r))
     = Some {| workMode := value;
               modeValue := match dict_find "defaultValue" d with
                            | Some v => v
                            | None => VInt 0
                            end |}.
Proof.
  intros Hn Hv Hg Hh Ho Hb Hf Hd He Ha. cbv zeta.
  rewrite (flat_option_run mode_field o name value (before ++ f :: after) _ h Hn Hv Hg Ho
             (default_level_last_named name before f after d n (VInt 0) Hb Hf Hd He Ha)).
  destruct (register_preset_run name value
              {| workMode := value;
                 modeValue := match dict_find "defaultValue" d with
                              | Some v => v
                              | None => VInt 0
                              end |} h Hh)
    as (Hr & _ & _ & _ & Hs).
  split; [ exact Hr | ].
  rewrite Hs. now apply pd_find_set_same.
Qed.

Lemma flat_preset_takes_last_default_witness :
  let mode_field :=
    VDict [("fieldName", VStr "modeValue");
           ("options", VList [VDict [("name", VStr "Auto"); ("defaultValue", VInt 5)];
                              VDict [("name", VStr "Auto"); ("defaultValue", VInt 7)];
                              VDict [("name", VStr "Fan")]])] in
  let r := @work_option_step sample_runtime mode_field (name_value "Auto" (VInt 3))
             (fresh (device [])) in
  res r = Ok tt
  /\ pd_find (VStr "Auto") (preset_modes_mapping_set (heap r))
     = Some {| workMode := VInt 3; modeValue := VInt 7 |}.
Proof.
  apply (flat_preset_takes_last_default sample_runtime (fresh (device []))
           (VDict [("fieldName", VStr "modeValue");
                   ("options", VList [VDict [("name", VStr "Auto"); ("defaultValue", VInt 5)];
                                      VDict [("name", VStr "Auto"); ("defaultValue", VInt 7)];
                                      VDict [("name", VStr "Fan")]])])
           (name_value "Auto" (VInt 3)) (VStr "Auto") (VInt 3)
           [VDict [("name", VStr "Auto"); ("defaultValue", VInt 5)]]
           [VDict [("name", VStr "Fan")]]
           (VDict [("name", VStr "Auto"); ("defaultValue", VInt 7)])
           [("name", VStr "Auto"); ("defaultValue", VInt 7)]
           (VStr "Auto"));
    try reflexivity.
  - constructor; [ | constructor ]. now eexists.
  - constructor; [ | constructor ]. exists (VStr "Fan"). split; reflexivity.
Defined.

(** ** Power commands *)

Lemma apply_switch_reverse_same h b v :
  hm_find (switch_mode b) (_attr_hvac_modes_mapping_set (cls (apply_switch h (b, v))))
  = Some v.
Proof. destruct b; simpl; apply hm_find_set_same. Qed.

Lemma apply_switch_reverse_other h sw m :
  switch_mode (fst sw) <> m ->
  hm_find m (_attr_hvac_modes_mapping_set (cls (apply_switch h sw)))
  = hm_find m (_attr_hvac_modes_mapping_set (cls h)).
Proof. destruct sw as [[ | ] v]; simpl; intros Hne; now apply hm_find_set_other. Qed.

Lemma apply_switch_forward_same h b v :
  pd_find v (_attr_hvac_modes_mapping (cls (apply_switch h (b, v)))) = Some (switch_mode b).
Proof. destruct b; simpl; apply pd_find_set_same. Qed.

Lemma apply_switch_forward_other h sw v :
  hashable (snd sw) = true -> hashable v = true -> py_eq (snd sw) v = false ->
  pd_find v (_attr_hvac_modes_mapping (cls (apply_switch h sw)))
  = pd_find v (_attr_hvac_modes_mapping (cls h)).
Proof.
  destruct sw as [[ | ] v']; simpl; intros H1 H2 H3; now apply pd_find_set_other.
Qed.

Lemma switches_reverse_other sws m :
  Forall (fun sw => switch_mode (fst sw) <> m) sws ->
  forall h, hm_find m (_attr_hvac_modes_mapping_set (cls (fold_left apply_switch sws h)))
            = hm_find m (_attr_hvac_modes_mapping_set (cls h)).
Proof.
  induction 1 as [ | sw sws Hsw _ IH ]; intros h; cbn [fold_left]; trivial.
  rewrite IH. now apply apply_switch_reverse_other.
Qed.

Lemma switches_forward_other sws v :
  hashable v = true ->
  Forall (fun sw => hashable (snd sw) = true) sws ->
  Forall (fun sw => py_eq (snd sw) v = false) sws ->
  forall h, pd_find v (_attr_hvac_modes_mapping (cls (fold_left apply_switch sws h)))
            = pd_find v (_attr_hvac_modes_mapping (cls h)).
Proof.
  intros Hv Hh. induction Hh as [ | sw sws Hsw _ IH ]; intros Hne h; cbn [fold_left]; trivial.
  inversion Hne as [ | ? ? Hsw' Hne' ]; subst.
  rewrite IH by exact Hne'. now apply apply_switch_forward_other.
Qed.

Lemma polarity_mode b sws :
  Forall (fun sw : bool * pyval => fst sw <> b) sws ->
  Forall (fun sw : bool * pyval => switch_mode (fst sw) <> switch_mode b) sws.
Proof.
  intros H. eapply Forall_impl; [ | exact H ].
  intros [b' v'] Hne E. apply Hne. simpl in *. destruct b', b; trivial; discriminate.
Qed.

Section Power.
Context {R : PyRuntime}.

(** An on_off capability leaves what its on/off options say, in order. *)
Lemma on_off_cap_switches cap type opts sws h :
  py_getitem cap "type" = Ok type ->
  py_eq type (VStr "devices.capabilities.on_off") = true ->
  on_off_options cap = Ok opts ->
  named_switches opts = Some sws ->
  res (process_cap cap h) = Ok tt
  /\ heap (process_cap cap h) = fold_left apply_switch sws h.
Proof.
  intros Ht Hty Ho Hs.
  destruct (process_cap_on_off cap type opts h Ht Hty Ho) as [Hr Hh].
  destruct (on_off_loop_switches opts sws Hs h) as [Hr' Hh'].
  split; congruence.
Qed.

End Power.

(** X12: the last option of a polarity decides the command.  When the on/off
    options of an on_off capability are read in order, the command for
    HEAT_COOL carries the value of the last option named on, the command for
    OFF the value of the last option named off, whatever earlier options and
    earlier entities stored. *)
Theorem last_switch_decides_command
  (R : PyRuntime) (h : Heap) (cap type : pyval) (opts : list pyval)
  (before after : list (bool * pyval)) (b : bool) (v : pyval) :
  py_getitem cap "type" = Ok type ->
  py_eq type (VStr "devices.capabilities.on_off") = true ->
  on_off_options cap = Ok opts ->
  named_switches opts = Some (before ++ (b, v) :: after) ->
  Forall (fun sw => fst sw <> b) after ->
  res (process_cap cap h) = Ok tt
  /\ async_set_hvac_mode (heap (process_cap cap h)) (switch_mode b)
     = Ok {| cmd_type := "devices.capabilities.on_off";
             cmd_instance := "powerSwitch";
             cmd_value := v |}.
Proof.
  intros Ht Hty Ho Hs Ha.
  destruct (on_off_cap_switches cap type opts _ h Ht Hty Ho Hs) as [Hr Hh].
  split; [ exact Hr | ].
  rewrite Hh, fold_left_app. cbn [fold_left]. unfold async_set_hvac_mode.
  rewrite (switches_reverse_other after (switch_mode b) (polarity_mode b after Ha)).
  now rewrite apply_switch_reverse_same.
Qed.

Lemma last_switch_decides_command_witness :
  let cap := on_off_cap [name_value "on" (VInt 1); name_value "off" (VInt 0);
                         name_value "on" (VInt 2)] in
  res (@process_cap sample_runtime cap (fresh (device []))) = Ok tt
  /\ async_set_hvac_mode (heap (@process_cap sample_runtime cap (fresh (device []))))
       (switch_mode true)
     = Ok {| cmd_type := "devices.capabilities.on_off";
             cmd_instance := "powerSwitch";
             cmd_value := VInt 2 |}.
Proof.
  apply (last_switch_decides_command sample_runtime (fresh (device []))
           (on_off_cap [name_value "on" (VInt 1); name_value "off" (VInt 0);
                        name_value "on" (VInt 2)])
           (VStr "devices.capabilities.on_off")
           [name_value "on" (VInt 1); name_value "off" (VInt 0); name_value "on" (VInt 2)]
           [(true, VInt 1); (false, VInt 0)] [] true (VInt 2));
    try reflexivity.
  constructor.
Defined.

(** X13: a power command reads back.  When the option that decides the
    command for a mode is followed by no option of its polarity and by none
    of an equal value, the value the command for the mode carries is read
    back from the snapshot as that mode, without a warning. *)
Theorem power_command_reads_back
  (R : PyRuntime) (h : Heap) (cap type : pyval) (opts : list pyval)
  (before after : list (bool * pyval)) (b : bool) (v : pyval) :
  py_getitem cap "type" = Ok type ->
  py_eq type (VStr "devices.capabilities.on_off") = true ->
  on_off_options cap = Ok opts ->
  named_switches opts = Some (before ++ (b, v) :: after) ->
  Forall (fun sw => fst sw <> b) after ->
  Forall (fun sw => py_eq (snd sw) v = false) after ->
  let h' := heap (process_cap cap h) in
  exists cmd,
    async_set_hvac_mode h' (switch_mode b) = Ok cmd
    /\ res (hvac_mode (power_snapshot (cmd_value cmd)) h') = Ok (Mode (switch_mode b))
    /\ logs (hvac_mode (power_snapshot (cmd_value cmd)) h') = [].
Proof.
  intros Ht Hty Ho Hs Ha Hv. cbv zeta.
  destruct (on_off_cap_switches cap type opts _ h Ht Hty Ho Hs) as [_ Hh].
  pose proof (named_switches_hashable opts _ Hs) as Hhash.
  apply Forall_app in Hhash as [_ Hhash].
  inversion Hhash as [ | ? ? Hvh Hafter ]; subst. simpl in Hvh.
  exists {| cmd_type := "devices.capabilities.on_off";
            cmd_instance := "powerSwitch";
            cmd_value := v |}.
  rewrite Hh, fold_left_app. cbn [fold_left].
  split.
  - unfold async_set_hvac_mode.
    rewrite (switches_reverse_other after (switch_mode b) (polarity_mode b after Ha)).
    now rewrite apply_switch_reverse_same.
  - cbn [cmd_value]. unfold hvac_mode, power_snapshot, bind, gets, lift, dict_get.
    cbn [GoveeAPI_GetCachedStateValue String.eqb Ascii.eqb Bool.eqb andb res heap logs].
    rewrite Hvh. cbn [res heap logs].
    rewrite (switches_forward_other after v Hvh Hafter Hv).
    rewrite apply_switch_forward_same. split; reflexivity.
Qed.

Lemma power_command_reads_back_witness :
  let cap := on_off_cap [name_value "on" (VInt 1); name_value "off" (VInt 0)] in
  let h' := heap (@process_cap sample_runtime cap (fresh (device []))) in
  exists cmd,
    async_set_hvac_mode h' (switch_mode true) = Ok cmd
    /\ res (hvac_mode (power_snapshot (cmd_value cmd)) h') = Ok (Mode (switch_mode true))
    /\ logs (hvac_mode (power_snapshot (cmd_value cmd)) h') = [].
Proof.
  apply (power_command_reads_back sample_runtime (fresh (device []))
           (on_off_cap [name_value "on" (VInt 1); name_value "off" (VInt 0)])
           (VStr "devices.capabilities.on_off")
           [name_value "on" (VInt 1); name_value "off" (VInt 0)]
           [] [(false, VInt 0)] true (VInt 1));
    try reflexivity.
  - constructor; [ | constructor ]. discriminate.
  - constructor; [ | constructor ]. reflexivity.
Defined.

(** ** Platform setup *)

Section SetupFacts.
Context {Coordinator EntityObj World : Type}.
Variable construct : Coordinator -> pyval -> World -> result EntityObj * World.

Lemma setup_loop_app ed before rest es w es1 w1 :
  setup_loop construct ed before es w = (Completed es1, w1) ->
  setup_loop construct ed (before ++ rest) es w = setup_loop construct ed rest es1 w1.
Proof.
  revert es w. induction before as [ | d before IH ]; intros es w H; simpl in *.
  - now injection H as <- <-.
  - destruct (setup_device construct ed d w) as [[[e | ] | x] w']; try discriminate;
      now apply IH.
Qed.

Lemma setup_device_other_type ed d t w :
  py_get d "type" VNone = Ok t -> py_in t PLATFORM_DEVICE_TYPES = false ->
  setup_device construct ed d w = (Ok None, w).
Proof. intros Ht Hin. unfold setup_device. now rewrite Ht, Hin. Qed.

Lemma setup_device_built ed d w e w' :
  setup_device construct ed d w = (Ok (Some e), w') ->
  is_platform_device d = true
  /\ exists c, coordinator_for ed d = Ok c /\ construct c d w = (Ok e, w').
Proof.
  unfold setup_device, is_platform_device, coordinator_for.
  destruct (py_get d "type" VNone) as [t | ]; [ | discriminate ].
  destruct (py_in t PLATFORM_DEVICE_TYPES); [ | discriminate ]. cbn [negb].
  destruct (let* device := py_get d "device" VNone in _) as [c | ]; [ | discriminate ].
  destruct (construct c d w) as [[e' | x] w''] eqn:Hc; [ | discriminate ].
  intros [= <- <-]. split; [ reflexivity | ]. exists c. now split.
Qed.

Lemma setup_device_skipped ed d w w' :
  setup_device construct ed d w = (Ok None, w') ->
  is_platform_device d = false /\ w' = w.
Proof.
  unfold setup_device, is_platform_device.
  destruct (py_get d "type" VNone) as [t | ]; [ | discriminate ].
  destruct (py_in t PLATFORM_DEVICE_TYPES); cbn [negb].
  - destruct (let* device := py_get d "device" VNone in _) as [c | ]; [ | discriminate ].
    destruct (construct c d w) as [[e | x] w'']; discriminate.
  - now intros [= <-].
Qed.

(** A loop that runs through has built the platform devices, and only them. *)
Lemma setup_loop_builds ed devices :
  forall es w es' w',
    setup_loop construct ed devices es w = (Completed es', w') ->
    exists built,
      es' = es ++ built
      /\ builds construct ed (filter is_platform_device devices) w built w'.
Proof.
  induction devices as [ | d devices IH ]; intros es w es' w' H; simpl in H.
  - injection H as <- <-. exists []. split; [ now rewrite app_nil_r | constructor ].
  - destruct (setup_device construct ed d w) as [[[e | ] | x] w1] eqn:Hd;
      try discriminate.
    + destruct (setup_device_built _ _ _ _ _ Hd) as (Hp & c & Hc & Hb).
      destruct (IH _ _ _ _ H) as (built & -> & Hbuilt).
      exists (e :: built). cbn [filter]. rewrite Hp.
      split; [ now rewrite <- app_assoc | ].
      now apply (builds_cons construct ed d _ c e built w w1 w').
    + destruct (setup_device_skipped _ _ _ _ Hd) as (Hp & ->).
      destruct (IH _ _ _ _ H) as (built & -> & Hbuilt).
      exists built. cbn [filter]. rewrite Hp. now split.
Qed.

End SetupFacts.

(** X14: one failing device ends the setup of the entry.  When a device
    raises in its turn of the loop (no coordinator for it, a constructor that
    raises, a configuration that is no dict), nothing is handed to
    [async_add_entities], the entities built for the devices before it
    included; the devices after it are not looked at; an error is logged, and
    what the constructors run so far did to the world stays. *)
Theorem failing_device_ends_setup
  (Coordinator EntityObj World : Type)
  (construct : Coordinator -> pyval -> World -> result EntityObj * World)
  (domain_data : option (list (string * EntryData Coordinator))) (entry_id : string)
  (entry_data : EntryData Coordinator) (api_devices : pyval)
  (before after : list pyval) (device_cfg : pyval)
  (built : list EntityObj) (e : exn) (w w1 w2 : World) :
  cloud_devices domain_data entry_id = Ok (entry_data, api_devices) ->
  py_iter api_devices = Ok (before ++ device_cfg :: after) ->
  setup_loop construct entry_data before [] w = (Completed built, w1) ->
  setup_device construct entry_data device_cfg w1 = (Raise e, w2) ->
  async_setup_entry construct domain_data entry_id w
  = Ok {| added := None;
          setup_logs := [(DEBUG, "Setting up platform entry");
                         (ERROR, "Failed to setup device")];
          world := w2 |}.
Proof.
  intros Hc Hi Hb Hd. unfold async_setup_entry. rewrite Hc, Hi. cbn [rbind].
  rewrite (setup_loop_app construct entry_data before (device_cfg :: after) [] w built w1 Hb).
  cbn [setup_loop]. now rewrite Hd.
Qed.

Lemma failing_device_ends_setup_witness :
  async_setup_entry counting_construct (Some [("entry", entry_missing_coordinator)])
    "entry" 0%nat
  = Ok {| added := None;
          setup_logs := [(DEBUG, "Setting up platform entry");
                         (ERROR, "Failed to setup device")];
          world := 1%nat |}.
Proof.
  apply (failing_device_ends_setup unit pyval nat counting_construct
           (Some [("entry", entry_missing_coordinator)]) "entry"
           entry_missing_coordinator
           (VList [device_of_type "devices.types.heater" "H1";
                   device_of_type "devices.types.heater" "H2";
                   device_of_type "devices.types.kettle" "K1"])
           [device_of_type "devices.types.heater" "H1"]
           [device_of_type "devices.types.kettle" "K1"]
           (device_of_type "devices.types.heater" "H2")
           [device_of_type "devices.types.heater" "H1"] KeyError 0%nat 1%nat 1%nat);
    reflexivity.
Defined.

(** X15: a device of another type is passed over.  A device configuration
    whose type is none of PLATFORM_DEVICE_TYPES changes nothing: the loop
    ends as it does without that device, in entities, in exception and in
    world; no coordinator is looked up and no constructor runs for it. *)
Theorem other_device_types_are_skipped
  (Coordinator EntityObj World : Type)
  (construct : Coordinator -> pyval -> World -> result EntityObj * World)
  (entry_data : EntryData Coordinator) (before after : list pyval)
  (device_cfg type : pyval) (entities : list EntityObj) (w : World) :
  py_get device_cfg "type" VNone = Ok type ->
  py_in type PLATFORM_DEVICE_TYPES = false ->
  setup_loop construct entry_data (before ++ device_cfg :: after) entities w
  = setup_loop construct entry_data (before ++ after) entities w.
Proof.
  intros Ht Hin. revert entities w.
  induction before as [ | d before IH ]; intros entities w; simpl.
  - now rewrite (setup_device_other_type construct entry_data device_cfg type w Ht Hin).
  - destruct (setup_device construct entry_data d w) as [[[e | ] | x] w']; trivial.
Qed.

Lemma other_device_types_are_skipped_witness :
  setup_loop counting_construct entry_mixed
    ([device_of_type "devices.types.heater" "H1"]
     ++ device_of_type "devices.types.light" "L1"
     :: [device_of_type "devices.types.kettle" "K1"]) [] 0%nat
  = setup_loop counting_construct entry_mixed
      ([device_of_type "devices.types.heater" "H1"]
       ++ [device_of_type "devices.types.kettle" "K1"]) [] 0%nat.
Proof.
  apply (other_device_types_are_skipped unit pyval nat counting_construct entry_mixed
           [device_of_type "devices.types.heater" "H1"]
           [device_of_type "devices.types.kettle" "K1"]
           (device_of_type "devices.types.light" "L1") (VStr "devices.types.light")
           [] 0%nat);
    reflexivity.
Defined.

(** X16: what is handed to [async_add_entities].  When the call hands over a
    list, the list is not empty and holds exactly the entities the
    constructor returned for the devices of the entry whose type is one of
    PLATFORM_DEVICE_TYPES: one for each such device, in the order of the
    devices, each built with the coordinator stored for its device and from
    the world the construction before it left; and the call ends in the
    world the last construction left. *)
Theorem added_entities_are_the_platform_devices
  (Coordinator EntityObj World : Type)
  (construct : Coordinator -> pyval -> World -> result EntityObj * World)
  (domain_data : option (list (string * EntryData Coordinator))) (entry_id : string)
  (entry_data : EntryData Coordinator) (api_devices : pyval) (devices : list pyval)
  (w : World) (o : SetupOutcome EntityObj World) (entities : list EntityObj) :
  cloud_devices domain_data entry_id = Ok (entry_data, api_devices) ->
  py_iter api_devices = Ok devices ->
  async_setup_entry construct domain_data entry_id w = Ok o ->
  added o = Some entities ->
  entities <> []
  /\ builds construct entry_data (filter is_platform_device devices) w entities (world o).
Proof.
  intros Hc Hi Hr Ha. unfold async_setup_entry in Hr. rewrite Hc, Hi in Hr.
  cbn [rbind] in Hr.
  destruct (setup_loop construct entry_data devices [] w) as [[es | x] w'] eqn:Hl;
    injection Hr as <-; cbn [added world] in *; [ | discriminate ].
  destruct (setup_loop_builds construct entry_data devices _ _ _ _ Hl)
    as (built & -> & Hb).
  cbn [app] in Ha. destruct built as [ | e built ]; [ discriminate | ].
  injection Ha as <-. split; [ discriminate | exact Hb ].
Qed.

Lemma added_entities_are_the_platform_devices_witness :
  [device_of_type "devices.types.heater" "H1"; device_of_type "devices.types.kettle" "K1"]
  <> []
  /\ builds counting_construct entry_mixed
       (filter is_platform_device
          [device_of_type "devices.types.heater" "H1";
           device_of_type "devices.types.light" "L1";
           device_of_type "devices.types.kettle" "K1"])
       0%nat
       [device_of_type "devices.types.heater" "H1";
        device_of_type "devices.types.kettle" "K1"]
       2%nat.
Proof.
  apply (added_entities_are_the_platform_devices unit pyval nat counting_construct
           (Some [("entry", entry_mixed)]) "entry" entry_mixed
           (VList [device_of_type "devices.types.heater" "H1";
                   device_of_type "devices.types.light" "L1";
                   device_of_type "devices.types.kettle" "K1"])
           [device_of_type "devices.types.heater" "H1";
            device_of_type "devices.types.light" "L1";
            device_of_type "devices.types.kettle" "K1"]
           0%nat
           {| added := Some [device_of_type "devices.types.heater" "H1";
                             device_of_type "devices.types.kettle" "K1"];
              setup_logs := [(DEBUG, "Setting up platform entry")];
              world := 2%nat |});
    reflexivity.
Defined.
